(** * Pondera: the per-page drawing, undo/redo and compositing core

    A shallow embedding of the drawing subsystem of
    [src/components/PdfAnnotator/PdfViewer.tsx] and of the data types of
    [src/types.ts], followed by the handlers of the same component that
    load a document, turn its pages and queue its pages for analysis.

    - JavaScript [number]s that carry coordinates and widths are IEEE 754
      binary64 values: they are modelled by Rocq's primitive [float], so
      that [*], [-] and [/] are the operations the browser performs.
    - Page numbers index plain objects ([{[key: number]: ...}]); they are
      modelled as [Z] keys of a [gmap].  [{...prev, [k]: v}] is [<[k:=v]> prev]
      and [m[k] || []] is [orEmpty m k] (an array, even an empty one, is
      truthy, so only an absent key takes the default).
    - The React state atoms of the component are the fields of [State]; an
      event handler is a function [State -> State] applied to the state of
      the render in which the handler was created; the component is taken
      to have rendered between two events, so that this is the current
      state.  No handler writes an atom before reading it, so the closure
      value and the [prev] argument of a functional updater coincide. *)

From Stdlib Require Import PrimFloat.
From stdpp Require Import gmap strings list fin_maps pretty.

Local Open Scope Z_scope.

(** ** Data model ([src/types.ts]) *)

Module Point.
Record t : Type := mk { x : float; y : float }.
End Point.

Module Drawing.
Record t : Type := mk {
  id : string;
  color : string;
  strokeWidth : float;
  points : list Point.t  (* Normalized 0-1 coordinates *)
}.
End Drawing.

(** [PageDrawings] and the two stacks of snapshots. *)
Abbreviation PageDrawings := (gmap Z (list Drawing.t)).
Abbreviation PageStacks := (gmap Z (list (list Drawing.t))).

(** The idiom [m[k] || []]. *)
Definition orEmpty {A : Type} (m : gmap Z (list A)) (k : Z) : list A :=
  default [] (m !! k).

(** ** Component state (the [useState] atoms used by the drawing core) *)

Record State : Type := mkState {
  activePage : Z;
  drawings : PageDrawings;
  isDrawingMode : bool;
  penColor : string;
  currentPath : list Point.t;
  history : PageStacks;
  future : PageStacks
}.

Definition setActivePage (v : Z) (s : State) : State :=
  mkState v (drawings s) (isDrawingMode s) (penColor s) (currentPath s)
          (history s) (future s).
Definition setDrawings (v : PageDrawings) (s : State) : State :=
  mkState (activePage s) v (isDrawingMode s) (penColor s) (currentPath s)
          (history s) (future s).
Definition setIsDrawingMode (v : bool) (s : State) : State :=
  mkState (activePage s) (drawings s) v (penColor s) (currentPath s)
          (history s) (future s).
Definition setPenColor (v : string) (s : State) : State :=
  mkState (activePage s) (drawings s) (isDrawingMode s) v (currentPath s)
          (history s) (future s).
Definition setCurrentPath (v : list Point.t) (s : State) : State :=
  mkState (activePage s) (drawings s) (isDrawingMode s) (penColor s) v
          (history s) (future s).
Definition setHistory (v : PageStacks) (s : State) : State :=
  mkState (activePage s) (drawings s) (isDrawingMode s) (penColor s)
          (currentPath s) v (future s).
Definition setFuture (v : PageStacks) (s : State) : State :=
  mkState (activePage s) (drawings s) (isDrawingMode s) (penColor s)
          (currentPath s) (history s) v.

(** [COLORS[0].value], the initial pen colour. *)
Definition COLORS0 : string := "#ef4444".

(** The state of the first render: every [useState] initialiser. *)
Definition initialState : State :=
  mkState 1 ∅ false COLORS0 [] ∅ ∅.

(** The toolbar button: [onClick={() => setIsDrawingMode(!isDrawingMode)}]. *)
Definition toggleDrawingMode (s : State) : State :=
  setIsDrawingMode (negb (isDrawingMode s)) s.

(** ** Pointer events *)

(** [getBoundingClientRect()] of the canvas that received the event. *)
Module Rect.
Record t : Type := mk { left : float; top : float; width : float; height : float }.
End Rect.

(** A mouse event, or the first touch of a touch event ([e.touches[0]],
    which the DOM guarantees for [touchstart] and [touchmove]), together
    with the bounding rectangle of [e.currentTarget]. *)
Record PointerEvent : Type := mkEvent {
  clientX : float;
  clientY : float;
  rect : Rect.t
}.

(** [x = (clientX - rect.left) / rect.width], [y] alike. *)
Definition normalized (e : PointerEvent) : Point.t :=
  Point.mk ((clientX e - Rect.left (rect e)) / Rect.width (rect e))%float
           ((clientY e - Rect.top (rect e)) / Rect.height (rect e))%float.

(** ** History ([saveHistory], [undo], [redo], [clearPageDrawings]) *)

Definition saveHistory (pageNum : Z) (s : State) : State :=
  let currentDrawings := orEmpty (drawings s) pageNum in
  let s := setHistory
             (<[pageNum := orEmpty (history s) pageNum ++ [currentDrawings]]> (history s)) s in
  (* Clear future stack when new action occurs *)
  setFuture (<[pageNum := []]> (future s)) s.

Definition undo (s : State) : State :=
  let pageHistory := orEmpty (history s) (activePage s) in
  if (length pageHistory =? 0)%nat then s else
  match last pageHistory with
  | None => s (* pageHistory is not empty here *)
  | Some previousState =>
      let newHistory := take (length pageHistory - 1) pageHistory in
      let s1 := setFuture
                  (<[activePage s := orEmpty (future s) (activePage s)
                                     ++ [orEmpty (drawings s) (activePage s)]]> (future s)) s in
      let s2 := setHistory (<[activePage s := newHistory]> (history s1)) s1 in
      setDrawings (<[activePage s := previousState]> (drawings s2)) s2
  end.

Definition redo (s : State) : State :=
  let pageFuture := orEmpty (future s) (activePage s) in
  if (length pageFuture =? 0)%nat then s else
  match last pageFuture with
  | None => s (* pageFuture is not empty here *)
  | Some nextState =>
      let newFuture := take (length pageFuture - 1) pageFuture in
      let s1 := setHistory
                  (<[activePage s := orEmpty (history s) (activePage s)
                                     ++ [orEmpty (drawings s) (activePage s)]]> (history s)) s in
      let s2 := setFuture (<[activePage s := newFuture]> (future s1)) s1 in
      setDrawings (<[activePage s := nextState]> (drawings s2)) s2
  end.

Definition clearPageDrawings (s : State) : State :=
  let currentDrawings := orEmpty (drawings s) (activePage s) in
  if (length currentDrawings =? 0)%nat then s else
  let s1 := saveHistory (activePage s) s in
  setDrawings (<[activePage s := []]> (drawings s1)) s1.

(** ** Live stroke capture *)

(** [handleMouseDown] and [handleTouchStart] (same body up to where the
    client coordinates are read). *)
Definition handleMouseDown (e : PointerEvent) (pageNum : Z) (s : State) : State :=
  if negb (isDrawingMode s) then s else
  setCurrentPath [normalized e] s.

Definition handleTouchStart (e : PointerEvent) (pageNum : Z) (s : State) : State :=
  if negb (isDrawingMode s) then s else
  setCurrentPath [normalized e] s.

(** [handleMouseMove] and [handleTouchMove]. *)
Definition handleMouseMove (e : PointerEvent) (s : State) : State :=
  if negb (isDrawingMode s) || (length (currentPath s) =? 0)%nat then s else
  setCurrentPath (currentPath s ++ [normalized e]) s.

Definition handleTouchMove (e : PointerEvent) (s : State) : State :=
  if negb (isDrawingMode s) || (length (currentPath s) =? 0)%nat then s else
  setCurrentPath (currentPath s ++ [normalized e]) s.

(** The object literal [newDrawing] of [handleEnd].  [now] is the value of
    [Date.now()], an integer number of milliseconds, which the template
    literal prints in decimal. *)
Definition newDrawing (now : Z) (penColor : string) (currentPath : list Point.t)
    : Drawing.t :=
  Drawing.mk ("draw-" +:+ pretty now)
             penColor
             (if String.eqb penColor "eraser" then 20%float else 4%float)
             currentPath.

(** [handleEnd] is bound to [onMouseUp], [onMouseLeave] and [onTouchEnd]. *)
Definition handleEnd (pageNum : Z) (now : Z) (s : State) : State :=
  if negb (isDrawingMode s) || (length (currentPath s) =? 0)%nat then s else
  let s1 := saveHistory pageNum s in
  let d := newDrawing now (penColor s) (currentPath s) in
  let s2 := setDrawings
              (<[pageNum := orEmpty (drawings s1) pageNum ++ [d]]> (drawings s1)) s1 in
  setCurrentPath [] s2.

(** ** Inputs of the drawing core as one step function *)

Inductive Input : Type :=
| MouseDown (e : PointerEvent) (pageNum : Z)
| MouseMove (e : PointerEvent)
| TouchStart (e : PointerEvent) (pageNum : Z)
| TouchMove (e : PointerEvent)
| End (pageNum : Z) (now : Z)      (* mouseup, mouseleave, touchend *)
| Undo
| Redo
| ClearPage
| ToggleDrawing
| PickColor (c : string)
| ScrollTo (pageNum : Z).          (* setActivePage *)

Definition step (s : State) (i : Input) : State :=
  match i with
  | MouseDown e p => handleMouseDown e p s
  | MouseMove e => handleMouseMove e s
  | TouchStart e p => handleTouchStart e p s
  | TouchMove e => handleTouchMove e s
  | End p now => handleEnd p now s
  | Undo => undo s
  | Redo => redo s
  | ClearPage => clearPageDrawings s
  | ToggleDrawing => toggleDrawingMode s
  | PickColor c => setPenColor c s
  | ScrollTo p => setActivePage p s
  end.

Definition run (s : State) (inputs : list Input) : State := foldl step s inputs.

(** ** The canvas 2D context

    The context is a record of the drawing-state attributes the program
    assigns, the path under construction, and the log of paint operations
    performed so far.  [stroke] records the path together with the
    attributes in effect at that moment, which is what determines the
    pixels it touches.  An assignment to [strokeStyle] is stored as given:
    the colours the program assigns are the palette's hex colours. *)

Inductive PathSeg : Type :=
| MoveTo (x y : float)
| LineTo (x y : float).

Definition segXY (g : PathSeg) : float * float :=
  match g with MoveTo x y => (x, y) | LineTo x y => (x, y) end.

Record StrokeOp : Type := mkStrokeOp {
  strokePath : list PathSeg;
  strokeComposite : string;
  strokeLineWidth : float;
  strokeColor : string;
  strokeCap : string;
  strokeJoin : string
}.

Inductive PaintOp : Type :=
| ClearRect (x y w h : float)
| Stroke (op : StrokeOp).

Record Ctx : Type := mkCtx {
  globalCompositeOperation : string;
  lineWidth : float;
  strokeStyle : string;
  lineCap : string;
  lineJoin : string;
  path : list PathSeg;
  painted : list PaintOp
}.

Definition set_globalCompositeOperation (v : string) (c : Ctx) : Ctx :=
  mkCtx v (lineWidth c) (strokeStyle c) (lineCap c) (lineJoin c) (path c) (painted c).
Definition set_lineWidth (v : float) (c : Ctx) : Ctx :=
  mkCtx (globalCompositeOperation c) v (strokeStyle c) (lineCap c) (lineJoin c)
        (path c) (painted c).
Definition set_strokeStyle (v : string) (c : Ctx) : Ctx :=
  mkCtx (globalCompositeOperation c) (lineWidth c) v (lineCap c) (lineJoin c)
        (path c) (painted c).
Definition set_lineCap (v : string) (c : Ctx) : Ctx :=
  mkCtx (globalCompositeOperation c) (lineWidth c) (strokeStyle c) v (lineJoin c)
        (path c) (painted c).
Definition set_lineJoin (v : string) (c : Ctx) : Ctx :=
  mkCtx (globalCompositeOperation c) (lineWidth c) (strokeStyle c) (lineCap c) v
        (path c) (painted c).
Definition set_path (v : list PathSeg) (c : Ctx) : Ctx :=
  mkCtx (globalCompositeOperation c) (lineWidth c) (strokeStyle c) (lineCap c)
        (lineJoin c) v (painted c).
Definition paint (op : PaintOp) (c : Ctx) : Ctx :=
  mkCtx (globalCompositeOperation c) (lineWidth c) (strokeStyle c) (lineCap c)
        (lineJoin c) (path c) (painted c ++ [op]).

Definition clearRect (x y w h : float) (c : Ctx) : Ctx := paint (ClearRect x y w h) c.
Definition beginPath (c : Ctx) : Ctx := set_path [] c.
Definition moveTo (x y : float) (c : Ctx) : Ctx := set_path (path c ++ [MoveTo x y]) c.
Definition lineTo (x y : float) (c : Ctx) : Ctx := set_path (path c ++ [LineTo x y]) c.
Definition stroke (c : Ctx) : Ctx :=
  paint (Stroke (mkStrokeOp (path c) (globalCompositeOperation c) (lineWidth c)
                            (strokeStyle c) (lineCap c) (lineJoin c))) c.

(** A context as [getContext('2d')] first returns it. *)
Definition freshCtx : Ctx := mkCtx "source-over" 1%float "#000000" "butt" "miter" [] [].

(** An [HTMLCanvasElement]: its [width], [height] and what
    [getContext('2d')] returns ([None] for [null]). *)
Module Canvas.
Record t : Type := mk { width : float; height : float; getContext : option Ctx }.
End Canvas.

(** ** Compositor ([renderDrawings], its helper [drawPath], and the
    effect of [DrawingCanvas]) *)

(** The helper [drawPath] closes over [ctx] and [canvas]; [W] and [H] are
    [canvas.width] and [canvas.height]. *)
Definition drawPath (W H : float) (points : list Point.t) (color : string)
    (width : float) (ctx : Ctx) : Ctx :=
  if (length points <? 2)%nat then ctx else
  match points with
  | [] => ctx
  | p0 :: rest =>
      let ctx := beginPath ctx in
      let ctx := moveTo (Point.x p0 * W) (Point.y p0 * H) ctx in
      let ctx := foldl (fun c p => lineTo (Point.x p * W) (Point.y p * H) c) ctx rest in
      let ctx :=
        if String.eqb color "eraser" then
          set_lineWidth 20 (set_globalCompositeOperation "destination-out" ctx)
        else
          set_lineWidth width
            (set_strokeStyle color (set_globalCompositeOperation "source-over" ctx)) in
      let ctx := set_lineCap "round" ctx in
      let ctx := set_lineJoin "round" ctx in
      let ctx := stroke ctx in
      (* Reset composite op *)
      set_globalCompositeOperation "source-over" ctx
  end.

Definition renderDrawings (canvas : option Canvas.t) (pageNum : Z) (s : State)
    : option Canvas.t :=
  match canvas with
  | None => None
  | Some cv =>
      match Canvas.getContext cv with
      | None => Some cv
      | Some ctx =>
          let W := Canvas.width cv in
          let H := Canvas.height cv in
          let ctx := clearRect 0 0 W H ctx in
          (* Draw saved drawings *)
          let pageDrawings := orEmpty (drawings s) pageNum in
          let ctx :=
            foldl (fun c d => drawPath W H (Drawing.points d) (Drawing.color d)
                                       (Drawing.strokeWidth d) c)
                  ctx pageDrawings in
          Some (Canvas.mk W H (Some ctx))
      end
  end.

(** The in-progress path that the effect of [DrawingCanvas] paints on top
    of the committed strokes. *)
Definition drawCurrentPath (W H : float) (currentPath : list Point.t)
    (penColor : string) (ctx : Ctx) : Ctx :=
  match currentPath with
  | [] => ctx
  | p0 :: rest =>
      let ctx := beginPath ctx in
      let ctx := moveTo (Point.x p0 * W) (Point.y p0 * H) ctx in
      let ctx := foldl (fun c p => lineTo (Point.x p * W) (Point.y p * H) c) ctx rest in
      let ctx :=
        if String.eqb penColor "eraser" then
          set_lineWidth 20 (set_globalCompositeOperation "destination-out" ctx)
        else
          set_lineWidth 4
            (set_strokeStyle penColor (set_globalCompositeOperation "source-over" ctx)) in
      let ctx := set_lineCap "round" ctx in
      let ctx := set_lineJoin "round" ctx in
      let ctx := stroke ctx in
      (* Reset *)
      set_globalCompositeOperation "source-over" ctx
  end.

(** The effect of [DrawingCanvas] once the canvas has its size; the props
    are those [PdfViewer] passes: [currentPath], [penColor] and
    [isDrawingCurrent = currentPath.length > 0]. *)
Definition DrawingCanvas_effect (canvas : option Canvas.t) (pageNum : Z) (s : State)
    : option Canvas.t :=
  match renderDrawings canvas pageNum s with
  | None => None
  | Some cv =>
      let isDrawingCurrent := (0 <? length (currentPath s))%nat in
      if isDrawingCurrent && (1 <? length (currentPath s))%nat then
        match Canvas.getContext cv with
        | None => Some cv
        | Some ctx =>
            Some (Canvas.mk (Canvas.width cv) (Canvas.height cv)
                    (Some (drawCurrentPath (Canvas.width cv) (Canvas.height cv)
                             (currentPath s) (penColor s) ctx)))
        end
      else Some cv
  end.

(** The pixel coordinates of a list of normalized points on a [W] by [H]
    surface, as [drawPath] computes them. *)
Definition pathOf (W H : float) (pts : list Point.t) : list PathSeg :=
  match pts with
  | [] => []
  | p0 :: rest =>
      MoveTo (Point.x p0 * W) (Point.y p0 * H)
      :: map (fun p => LineTo (Point.x p * W) (Point.y p * H)) rest
  end.

(** ** Whole gestures

    One freehand gesture as the user performs it: a colour is picked, the
    pointer goes down, moves any number of times and is released over the
    canvas of page [p].  [gTouch] tells a finger from a mouse. *)

Record Gesture : Type := mkGesture {
  gTouch : bool;
  gColor : string;
  gDown : PointerEvent;
  gMoves : list PointerEvent;
  gNow : Z
}.

Definition gestureInputs (p : Z) (g : Gesture) : list Input :=
  PickColor (gColor g)
  :: (if gTouch g then TouchStart (gDown g) p else MouseDown (gDown g) p)
  :: map (if gTouch g then TouchMove else MouseMove) (gMoves g)
  ++ [End p (gNow g)].

(** The stroke a gesture commits. *)
Definition strokeOf (g : Gesture) : Drawing.t :=
  newDrawing (gNow g) (gColor g) (normalized (gDown g) :: map normalized (gMoves g)).

(** ** Views of one page used in the proofs *)

(** [s] with the three entries of page [p] replaced. *)
Definition withPage (p : Z) (h : list (list Drawing.t)) (l : list Drawing.t)
    (f : list (list Drawing.t)) (s : State) : State :=
  mkState (activePage s) (<[p := l]> (drawings s)) (isDrawingMode s) (penColor s)
          (currentPath s) (<[p := h]> (history s)) (<[p := f]> (future s)).

(** Page [p] standing at position [i] of a timeline [T] of snapshots: the
    snapshots before [i] are the HistoryStack, the one at [i] is live and
    the later ones, latest at the bottom, are the FutureStack. *)
Definition atIndex (p : Z) (T : list (list Drawing.t)) (i : nat) (s : State) : State :=
  withPage p (take i T) (T !!! i) (reverse (drop (S i) T)) s.

(** Page [q] has the same live strokes and stacks in [s'] as in [s]. *)
Definition samePage (q : Z) (s s' : State) : Prop :=
  drawings s' !! q = drawings s !! q /\
  history s' !! q = history s !! q /\
  future s' !! q = future s !! q.

(** ** The rest of the viewer ([PdfViewer] outside the drawing core)

    The remaining state atoms that the document, paging and analysis
    handlers read and write.  [core] holds the atoms of [State]. *)

(** [StudyMode] of [src/types.ts]. *)
Inductive StudyMode : Type := READ | STUDY.

Module Annotation.
Record t : Type := mk {
  id : string;
  title : string;
  description : string;
  verticalPosition : float;  (* 0 to 100 percentage down the page *)
  type : string
}.
End Annotation.

(** A DOM [File], as far as the viewer looks at it. *)
Module File.
Record t : Type := mk { name : string; type : string }.
End File.

Record Viewer : Type := mkViewer {
  core : State;
  file : option (File.t + string);          (* File | string | null *)
  numPages : Z;
  annotations : gmap Z (list Annotation.t);
  analyzingPages : gset Z;
  studyMode : StudyMode;
  isUploadMenuOpen : bool
}.

Definition withCore (f : State -> State) (v : Viewer) : Viewer :=
  mkViewer (f (core v)) (file v) (numPages v) (annotations v) (analyzingPages v)
           (studyMode v) (isUploadMenuOpen v).
Definition setFile (x : option (File.t + string)) (v : Viewer) : Viewer :=
  mkViewer (core v) x (numPages v) (annotations v) (analyzingPages v)
           (studyMode v) (isUploadMenuOpen v).
Definition setNumPages (x : Z) (v : Viewer) : Viewer :=
  mkViewer (core v) (file v) x (annotations v) (analyzingPages v)
           (studyMode v) (isUploadMenuOpen v).
Definition setAnnotations (x : gmap Z (list Annotation.t)) (v : Viewer) : Viewer :=
  mkViewer (core v) (file v) (numPages v) x (analyzingPages v)
           (studyMode v) (isUploadMenuOpen v).
Definition setAnalyzingPages (x : gset Z) (v : Viewer) : Viewer :=
  mkViewer (core v) (file v) (numPages v) (annotations v) x
           (studyMode v) (isUploadMenuOpen v).
Definition setStudyMode (x : StudyMode) (v : Viewer) : Viewer :=
  mkViewer (core v) (file v) (numPages v) (annotations v) (analyzingPages v)
           x (isUploadMenuOpen v).
Definition setIsUploadMenuOpen (x : bool) (v : Viewer) : Viewer :=
  mkViewer (core v) (file v) (numPages v) (annotations v) (analyzingPages v)
           (studyMode v) x.

(** The viewer of the first render. *)
Definition initialViewer : Viewer :=
  mkViewer initialState None 0 ∅ ∅ READ false.

(** Truthiness of [file]: [null] and the empty string are falsy. *)
Definition fileLoaded (v : Viewer) : bool :=
  match file v with
  | None => false
  | Some (inl _) => true
  | Some (inr url) => negb (String.eqb url "")
  end.

(** *** Loading a document *)

Definition resetViewer (v : Viewer) : Viewer :=
  let v := withCore (setActivePage 1) v in
  let v := setAnnotations ∅ v in
  let v := withCore (setDrawings ∅) v in
  let v := withCore (setHistory ∅) v in
  let v := withCore (setFuture ∅) v in
  let v := setStudyMode READ v in
  setAnalyzingPages ∅ v.

(** [files] is [event.target.files]: [None] for [null]. *)
Definition onFileChange (files : option (list File.t)) (v : Viewer) : Viewer :=
  let v :=
    match files with
    | Some (f :: _) => resetViewer (setFile (Some (inl f)) v)
    | _ => v
    end in
  setIsUploadMenuOpen false v.

(** [onDrop]; the second component is the text passed to [alert], if any. *)
Definition onDrop (files : option (list File.t)) (v : Viewer) : Viewer * option string :=
  match files with
  | Some (droppedFile :: _) =>
      if String.eqb (File.type droppedFile) "application/pdf" then
        (resetViewer (setFile (Some (inl droppedFile)) v), None)
      else (v, Some "Please drop a PDF file.")
  | _ => (v, None)
  end.

Definition onDocumentLoadSuccess (n : Z) (v : Viewer) : Viewer := setNumPages n v.

(** *** Paging *)

(** [scrollToPage]; the call of [scrollIntoView] moves the viewport only. *)
Definition scrollToPage (pageNum : Z) (v : Viewer) : Viewer :=
  let targetPage := Z.min (Z.max 1 pageNum) (numPages v) in
  withCore (setActivePage targetPage) v.

(** The two pagination buttons with their [disabled] attributes. *)
Definition previousPageButton (v : Viewer) : Viewer :=
  if activePage (core v) <=? 1 then v else scrollToPage (activePage (core v) - 1) v.

Definition nextPageButton (v : Viewer) : Viewer :=
  if numPages v <=? activePage (core v) then v else scrollToPage (activePage (core v) + 1) v.

(** *** Toolbar *)

(** [disabled] of the undo and redo buttons. *)
Definition undoDisabled (s : State) : bool :=
  negb (match history s !! activePage s with
        | Some h => (0 <? length h)%nat
        | None => false
        end).

Definition redoDisabled (s : State) : bool :=
  negb (match future s !! activePage s with
        | Some f => (0 <? length f)%nat
        | None => false
        end).

(** *** Page analysis

    [analyzePage] is asynchronous.  Up to its first [await] it checks its
    guards and marks the page as being analyzed ([analyzePage_accepts],
    [analyzePage_start]); when the request settles it stores the result, if
    there is one, and unmarks the page ([analyzePage_settle]).  [hasCanvas]
    tells whether the page element holds a rendered canvas; the outcome is
    [Some] of the annotations received or [None] for a failure caught by
    [catch]. *)

Definition analyzePage_accepts (pageNum : Z) (hasCanvas : bool) (v : Viewer) : bool :=
  if (pageNum <? 1) || (numPages v <? pageNum) then false else
  if bool_decide (is_Some (annotations v !! pageNum))
     || bool_decide (pageNum ∈ analyzingPages v) then false else
  hasCanvas.

Definition analyzePage_start (pageNum : Z) (v : Viewer) : Viewer :=
  setAnalyzingPages (analyzingPages v ∪ {[pageNum]}) v.

Definition analyzePage_settle (pageNum : Z) (outcome : option (list Annotation.t))
    (v : Viewer) : Viewer :=
  let v :=
    match outcome with
    | Some pageAnnotations =>
        setAnnotations (<[pageNum := pageAnnotations]> (annotations v)) v
    | None => v
    end in
  setAnalyzingPages (analyzingPages v ∖ {[pageNum]}) v.

(** One call of [analyzePage] from acceptance to settlement, nothing else
    happening in between. *)
Definition analyzePage (pageNum : Z) (hasCanvas : bool)
    (outcome : option (list Annotation.t)) (v : Viewer) : Viewer :=
  if analyzePage_accepts pageNum hasCanvas v then
    analyzePage_settle pageNum outcome (analyzePage_start pageNum v)
  else v.

(** The loop of [findNextUnanalyzedPage]: [n] iterations are left and [i]
    is the loop variable. *)
Fixpoint findNextFrom (i : Z) (n : nat) (v : Viewer) : option Z :=
  match n with
  | O => None
  | S n' =>
      if negb (bool_decide (is_Some (annotations v !! i)))
         && negb (bool_decide (i ∈ analyzingPages v))
      then Some i
      else findNextFrom (i + 1) n' v
  end.

Definition findNextUnanalyzedPage (v : Viewer) : option Z :=
  findNextFrom 1 (Z.to_nat (numPages v)) v.

(** The background analysis effect: the page whose analysis it schedules
    (after 1.5 s), if any. *)
Definition backgroundEffect (v : Viewer) : option Z :=
  if (match studyMode v with STUDY => false | READ => true end)
     || negb (fileLoaded v) || (numPages v =? 0)
     || (0 <? size (analyzingPages v))%nat
  then None else
  match findNextUnanalyzedPage v with
  | Some nextPage => if nextPage =? 0 then None else Some nextPage
  | None => None
  end.

(** The auto-analyze effect: the page it analyzes at once and the page it
    schedules (after 0.5 s). *)
Definition autoAnalyzeEffect (v : Viewer) : option Z * option Z :=
  match studyMode v with
  | STUDY =>
      if fileLoaded v then
        (if bool_decide (is_Some (annotations v !! activePage (core v))) then None
         else Some (activePage (core v)),
         let nextPage := activePage (core v) + 1 in
         if (nextPage <=? numPages v)
            && negb (bool_decide (is_Some (annotations v !! nextPage)))
         then Some nextPage else None)
      else (None, None)
  | READ => (None, None)
  end.

(** One turn of the background queue: the scheduled page is analyzed and
    the request settles with [outcome]; the page's canvas is rendered. *)
Definition backgroundRound (outcome : Z -> option (list Annotation.t)) (v : Viewer)
    : Viewer :=
  match backgroundEffect v with
  | Some p => analyzePage p true (outcome p) v
  | None => v
  end.

(** ** The snapshots of a page in order *)

(** HistoryStack, live strokes and FutureStack of page [p] laid out in
    time: the oldest snapshot first, the redo furthest ahead last. *)
Definition timeline (p : Z) (s : State) : list (list Drawing.t) :=
  orEmpty (history s) p ++ [orEmpty (drawings s) p] ++ reverse (orEmpty (future s) p).

(** ** Kinds of input *)

(** The inputs that come from the pointer over a page canvas. *)
Definition isPointerInput (i : Input) : bool :=
  match i with
  | MouseDown _ _ | MouseMove _ | TouchStart _ _ | TouchMove _ | End _ _ => true
  | _ => false
  end.

(** Those of them that do not begin a capture. *)
Definition isMoveOrEnd (i : Input) : bool :=
  match i with
  | MouseMove _ | TouchMove _ | End _ _ => true
  | _ => false
  end.

(** ** Concrete inputs used in the examples *)

(** A pointer event at client position ([cx], [cy]) over a canvas whose
    bounding rectangle is [w] by [h] with its corner at the origin. *)
Definition eventAt (cx cy w h : float) : PointerEvent :=
  mkEvent cx cy (Rect.mk 0 0 w h).

(** Stroke A of the specification's scenario: red, from (0,0) to (1,1). *)
Definition gestureA : Gesture :=
  mkGesture false "#ef4444" (eventAt 0 0 600 800) [eventAt 600 800 600 800] 1700000000000.

(** Stroke B: the eraser dragged by a finger across the middle of the page. *)
Definition gestureB : Gesture :=
  mkGesture true "eraser" (eventAt 150 200 600 800)
            [eventAt 300 400 600 800; eventAt 450 600 600 800] 1700000000500.

(** Drawing mode switched on in the first render. *)
Definition drawingState : State := toggleDrawingMode initialState.

(** Page 1 after strokes A and B. *)
Definition annotatedState : State :=
  run drawingState (flat_map (gestureInputs 1) [gestureA; gestureB]).

(** A capture in progress on the annotated page: one point so far. *)
Definition capturingState : State :=
  run annotatedState [MouseDown (eventAt 300 400 600 800) 1].

(** A document of three pages, opened from a URL and switched to STUDY
    mode, with strokes A and B on page 1 and nothing analyzed yet. *)
Definition studyViewer : Viewer :=
  mkViewer annotatedState (Some (inr "https://example.org/paper.pdf")) 3 ∅ ∅ STUDY false.

Definition sampleAnnotation : Annotation.t :=
  Annotation.mk "anno-1700000002000-0" "Entropy" "A measure of disorder." 40 "concept".

(** Every request is answered with the one sample annotation. *)
Definition sampleOutcome (p : Z) : option (list Annotation.t) := Some [sampleAnnotation].

(** A canvas of 1200 by 1600 pixels with a fresh context. *)
Definition sampleCanvas : Canvas.t := Canvas.mk 1200 1600 (Some freshCtx).

(** * Properties *)

(** ** Empty stacks *)

(** C2: undo on an empty HistoryStack, and redo on an empty FutureStack,
    leave the whole state (live strokes and both stacks) unchanged. *)
Theorem undo_redo_empty_stack_noop (s : State) :
  (orEmpty (history s) (activePage s) = [] -> undo s = s) /\
  (orEmpty (future s) (activePage s) = [] -> redo s = s).
Proof.
  split; intros H.
  - unfold undo. rewrite H. reflexivity.
  - unfold redo. rewrite H. reflexivity.
Qed.

(** ** Facts about the path construction *)

Section Scaling.
  (* [canvas.width] and [canvas.height] at the time of the render *)
  Variables W H : float.

Lemma foldl_lineTo_attrs (rest : list Point.t) (c : Ctx) :
  let c' := foldl (fun c p => lineTo (Point.x p * W) (Point.y p * H) c) c rest in
  path c' = path c ++ map (fun p => LineTo (Point.x p * W) (Point.y p * H)) rest /\
  painted c' = painted c /\
  globalCompositeOperation c' = globalCompositeOperation c /\
  lineWidth c' = lineWidth c /\ strokeStyle c' = strokeStyle c /\
  lineCap c' = lineCap c /\ lineJoin c' = lineJoin c.
Proof.
  revert c. induction rest as [|p rest IH]; intros c; simpl.
  - rewrite app_nil_r. repeat split.
  - destruct (IH (lineTo (Point.x p * W) (Point.y p * H) c)) as (Hp & Hr).
    split; [| exact Hr]. rewrite Hp. simpl. rewrite <- app_assoc. reflexivity.
Qed.

Lemma segXY_pathOf (pts : list Point.t) :
  map segXY (pathOf W H pts) = map (fun p => (Point.x p * W, Point.y p * H)%float) pts.
Proof.
  destruct pts as [|p0 rest]; simpl; [reflexivity|].
  f_equal. rewrite map_map. reflexivity.
Qed.

(** What one call of [drawPath] on at least two points does: it paints
    exactly one stroke, along the scaled points, with the attributes chosen
    by the colour test and round caps and joins. *)
Lemma drawPath_paints (pts : list Point.t) (color : string)
    (width : float) (ctx : Ctx) :
  (2 <= length pts)%nat ->
  painted (drawPath W H pts color width ctx) =
    painted ctx ++
    [Stroke (mkStrokeOp (pathOf W H pts)
               (if String.eqb color "eraser" then "destination-out" else "source-over")
               (if String.eqb color "eraser" then 20%float else width)
               (if String.eqb color "eraser" then strokeStyle ctx else color)
               "round" "round")].
Proof.
  intros Hlen. unfold drawPath.
  destruct (Nat.ltb_spec (length pts) 2) as [Hlt|_]; [lia|].
  destruct pts as [|p0 rest]; [simpl in Hlen; lia|].
  pose proof (foldl_lineTo_attrs rest
                (moveTo (Point.x p0 * W) (Point.y p0 * H) (beginPath ctx))) as Hf.
  cbv zeta in Hf. destruct Hf as (Hp & Hpt & Hg & Hw & Hs & Hc & Hj).
  destruct (String.eqb color "eraser"); simpl; rewrite Hp, Hpt; simpl;
    try rewrite Hs; reflexivity.
Qed.

Lemma drawCurrentPath_paints (pts : list Point.t) (penColor : string)
    (ctx : Ctx) :
  pts <> [] ->
  painted (drawCurrentPath W H pts penColor ctx) =
    painted ctx ++
    [Stroke (mkStrokeOp (pathOf W H pts)
               (if String.eqb penColor "eraser" then "destination-out" else "source-over")
               (if String.eqb penColor "eraser" then 20%float else 4%float)
               (if String.eqb penColor "eraser" then strokeStyle ctx else penColor)
               "round" "round")].
Proof.
  intros Hne. unfold drawCurrentPath.
  destruct pts as [|p0 rest]; [congruence|].
  pose proof (foldl_lineTo_attrs rest
                (moveTo (Point.x p0 * W) (Point.y p0 * H) (beginPath ctx))) as Hf.
  cbv zeta in Hf. destruct Hf as (Hp & Hpt & Hg & Hw & Hs & Hc & Hj).
  destruct (String.eqb penColor "eraser"); simpl; rewrite Hp, Hpt; simpl;
    try rewrite Hs; reflexivity.
Qed.

End Scaling.

(** C7: on a surface of width [W] and height [H] the compositor draws every
    stroke (and the in-progress path) through the pixels [(x*W, y*H)] of
    its normalized points, whatever surface the points were recorded on;
    a point recorded as (0.5, 0.5) on a 600x800 surface is drawn at
    pixel (600, 800) on a 1200x1600 surface.  (Drawn strokes have at least
    two points, see [drawPath_short].) *)
Theorem normalized_points_scale_to_surface :
  (forall (W H : float) (pts : list Point.t) (color : string) (width : float) (ctx : Ctx),
      (2 <= length pts)%nat ->
      (exists op,
          painted (drawPath W H pts color width ctx) = painted ctx ++ [Stroke op] /\
          map segXY (strokePath op)
          = map (fun p => (Point.x p * W, Point.y p * H)%float) pts) /\
      (exists op,
          painted (drawCurrentPath W H pts color ctx) = painted ctx ++ [Stroke op] /\
          map segXY (strokePath op)
          = map (fun p => (Point.x p * W, Point.y p * H)%float) pts)) /\
  (let recorded := normalized (eventAt 300 400 600 800) in
   recorded = Point.mk 0.5 0.5 /\
   forall (p1 : Point.t) (color : string) (width : float) (ctx : Ctx),
     exists op rest,
       painted (drawPath 1200 1600 [recorded; p1] color width ctx)
       = painted ctx ++ [Stroke op] /\
       strokePath op = MoveTo 600 800 :: rest).
Proof.
  split.
  - intros W H pts color width ctx Hlen. split.
    + eexists. split; [apply drawPath_paints; exact Hlen|].
      simpl. apply segXY_pathOf.
    + assert (Hne : pts <> []) by (destruct pts; [simpl in Hlen; lia | discriminate]).
      eexists. split; [apply drawCurrentPath_paints; exact Hne|].
      simpl. apply segXY_pathOf.
  - cbv zeta. split; [reflexivity|].
    intros p1 color width ctx.
    eexists. eexists. split; [apply drawPath_paints; simpl; lia|].
    simpl. reflexivity.
Qed.

(** ** Facts about the handlers *)

Lemma orEmpty_insert_eq {A} (m : gmap Z (list A)) (k : Z) (v : list A) :
  orEmpty (<[k := v]> m) k = v.
Proof. unfold orEmpty. rewrite lookup_insert_eq. reflexivity. Qed.

(** A commit: [handleEnd] with drawing mode on and a non-empty path. *)
Lemma handleEnd_commit (p now : Z) (s : State) :
  isDrawingMode s = true -> currentPath s <> [] ->
  handleEnd p now s =
    mkState (activePage s)
            (<[p := orEmpty (drawings s) p ++ [newDrawing now (penColor s) (currentPath s)]]>
               (drawings s))
            true (penColor s) []
            (<[p := orEmpty (history s) p ++ [orEmpty (drawings s) p]]> (history s))
            (<[p := []]> (future s)).
Proof.
  intros Hm Hp. unfold handleEnd. rewrite Hm. simpl.
  destruct (currentPath s) as [|pt path] eqn:E; [congruence|]. simpl.
  unfold setCurrentPath, setDrawings, saveHistory, setFuture, setHistory. simpl.
  rewrite Hm. reflexivity.
Qed.

Lemma handleEnd_commit_withPage (p now : Z) (s : State) :
  isDrawingMode s = true -> currentPath s <> [] ->
  handleEnd p now s =
    withPage p (orEmpty (history s) p ++ [orEmpty (drawings s) p])
             (orEmpty (drawings s) p ++ [newDrawing now (penColor s) (currentPath s)])
             [] (setCurrentPath [] s).
Proof.
  intros Hm Hp. rewrite handleEnd_commit by assumption.
  unfold withPage. simpl. rewrite Hm. reflexivity.
Qed.

Lemma handleEnd_ignored (p now : Z) (s : State) :
  isDrawingMode s = false \/ currentPath s = [] -> handleEnd p now s = s.
Proof.
  intros [H|H]; unfold handleEnd; rewrite H; simpl; [reflexivity|].
  rewrite orb_true_r. reflexivity.
Qed.

Lemma clearPageDrawings_nonempty (s : State) :
  orEmpty (drawings s) (activePage s) <> [] ->
  clearPageDrawings s =
    mkState (activePage s) (<[activePage s := []]> (drawings s)) (isDrawingMode s)
            (penColor s) (currentPath s)
            (<[activePage s := orEmpty (history s) (activePage s)
                               ++ [orEmpty (drawings s) (activePage s)]]> (history s))
            (<[activePage s := []]> (future s)).
Proof.
  intros H. unfold clearPageDrawings.
  destruct (orEmpty (drawings s) (activePage s)) as [|d l] eqn:E; [congruence|].
  simpl. unfold setDrawings, saveHistory, setFuture, setHistory. simpl.
  rewrite E. reflexivity.
Qed.

(** C3: a stroke commit, and a clear of a non-empty page, push the page's
    current stroke sequence onto its HistoryStack and leave its FutureStack
    empty. *)
Theorem mutation_snapshots_and_clears_future (s : State) :
  (forall p now : Z,
      isDrawingMode s = true -> currentPath s <> [] ->
      let s' := handleEnd p now s in
      history s' !! p = Some (orEmpty (history s) p ++ [orEmpty (drawings s) p]) /\
      future s' !! p = Some [] /\
      drawings s' !! p
      = Some (orEmpty (drawings s) p ++ [newDrawing now (penColor s) (currentPath s)])) /\
  (orEmpty (drawings s) (activePage s) <> [] ->
   let p := activePage s in
   let s' := clearPageDrawings s in
   history s' !! p = Some (orEmpty (history s) p ++ [orEmpty (drawings s) p]) /\
   future s' !! p = Some [] /\
   drawings s' !! p = Some []).
Proof.
  split.
  - intros p now Hm Hp. cbv zeta. rewrite handleEnd_commit by assumption. simpl.
    rewrite !lookup_insert_eq. auto.
  - intros H. cbv zeta. rewrite clearPageDrawings_nonempty by assumption. simpl.
    rewrite !lookup_insert_eq. auto.
Qed.

(** C4: clearing a page whose live stroke sequence is empty changes
    nothing: no snapshot is taken and both stacks stay as they are. *)
Theorem clear_empty_page_noop (s : State) :
  orEmpty (drawings s) (activePage s) = [] -> clearPageDrawings s = s.
Proof. intros H. unfold clearPageDrawings. rewrite H. reflexivity. Qed.

(** ** Per-page independence *)

Lemma samePage_refl (q : Z) (s : State) : samePage q s s.
Proof. repeat split. Qed.

Ltac frame_other_page :=
  unfold samePage, setDrawings, saveHistory, setFuture, setHistory, setCurrentPath;
  simpl; rewrite ?lookup_insert_ne by assumption; repeat split.

Lemma handleEnd_frame (p q now : Z) (s : State) :
  p <> q -> samePage q s (handleEnd p now s).
Proof.
  intros Hne. unfold handleEnd.
  destruct (negb (isDrawingMode s) || (length (currentPath s) =? 0)%nat);
    [apply samePage_refl | frame_other_page].
Qed.

Lemma undo_frame (q : Z) (s : State) :
  activePage s <> q -> samePage q s (undo s).
Proof.
  intros Hne. unfold undo.
  destruct (length (orEmpty (history s) (activePage s)) =? 0)%nat;
    [apply samePage_refl|].
  destruct (last (orEmpty (history s) (activePage s)));
    [frame_other_page | apply samePage_refl].
Qed.

Lemma redo_frame (q : Z) (s : State) :
  activePage s <> q -> samePage q s (redo s).
Proof.
  intros Hne. unfold redo.
  destruct (length (orEmpty (future s) (activePage s)) =? 0)%nat;
    [apply samePage_refl|].
  destruct (last (orEmpty (future s) (activePage s)));
    [frame_other_page | apply samePage_refl].
Qed.

Lemma clearPageDrawings_frame (q : Z) (s : State) :
  activePage s <> q -> samePage q s (clearPageDrawings s).
Proof.
  intros Hne. unfold clearPageDrawings.
  destruct (length (orEmpty (drawings s) (activePage s)) =? 0)%nat;
    [apply samePage_refl | frame_other_page].
Qed.

(** C9: for distinct pages [p] and [q], a stroke commit on [p], and an
    undo, a redo or a clear while [p] is the active page, leave the live
    strokes, the HistoryStack and the FutureStack of [q] unchanged. *)
Theorem pages_are_independent (p q : Z) (s : State) :
  p <> q ->
  (forall now : Z, samePage q s (handleEnd p now s)) /\
  (activePage s = p ->
   samePage q s (undo s) /\ samePage q s (redo s) /\ samePage q s (clearPageDrawings s)).
Proof.
  intros Hne. split.
  - intros now. apply handleEnd_frame. exact Hne.
  - intros <-. split; [|split].
    + apply undo_frame. exact Hne.
    + apply redo_frame. exact Hne.
    + apply clearPageDrawings_frame. exact Hne.
Qed.

(** ** Gestures commit strokes *)

Lemma run_app (s : State) (l k : list Input) : run s (l ++ k) = run (run s l) k.
Proof. apply foldl_app. Qed.

Lemma run_cons (s : State) (i : Input) (l : list Input) :
  run s (i :: l) = run (step s i) l.
Proof. reflexivity. Qed.

Lemma run_moves (touch : bool) (moves : list PointerEvent) (s : State) :
  isDrawingMode s = true -> currentPath s <> [] ->
  run s (map (if touch then TouchMove else MouseMove) moves)
  = setCurrentPath (currentPath s ++ map normalized moves) s.
Proof.
  revert s. induction moves as [|e moves IH]; intros s Hm Hp.
  - simpl. rewrite app_nil_r. destruct s; reflexivity.
  - assert (Hstep : step s ((if touch then TouchMove else MouseMove) e)
                    = setCurrentPath (currentPath s ++ [normalized e]) s).
    { destruct touch; simpl; unfold handleTouchMove, handleMouseMove; rewrite Hm;
        destruct (currentPath s); simpl; congruence. }
    rewrite map_cons, run_cons, Hstep, IH.
    + unfold setCurrentPath. simpl. rewrite <- app_assoc. reflexivity.
    + exact Hm.
    + simpl. destruct (currentPath s); discriminate.
Qed.

(** A whole gesture on page [p] in drawing mode is one commit of the
    stroke through its points. *)
Lemma run_gesture (p : Z) (g : Gesture) (s : State) :
  isDrawingMode s = true ->
  run s (gestureInputs p g) =
    mkState (activePage s)
            (<[p := orEmpty (drawings s) p ++ [strokeOf g]]> (drawings s))
            true (gColor g) []
            (<[p := orEmpty (history s) p ++ [orEmpty (drawings s) p]]> (history s))
            (<[p := []]> (future s)).
Proof.
  intros Hm. unfold gestureInputs.
  rewrite !run_cons.
  assert (Hdown : step (step s (PickColor (gColor g)))
                    (if gTouch g then TouchStart (gDown g) p else MouseDown (gDown g) p)
                  = setCurrentPath [normalized (gDown g)] (setPenColor (gColor g) s)).
  { destruct (gTouch g); simpl; unfold handleTouchStart, handleMouseDown; simpl;
      rewrite Hm; reflexivity. }
  rewrite Hdown, run_app, run_moves; [| exact Hm | discriminate].
  simpl. rewrite handleEnd_commit; [| exact Hm | discriminate].
  reflexivity.
Qed.

(** ** Undo and redo walk a timeline of snapshots *)

Lemma undo_withPage (p : Z) (pre : list (list Drawing.t)) (x cur : list Drawing.t)
    (f : list (list Drawing.t)) (s : State) :
  activePage s = p ->
  undo (withPage p (pre ++ [x]) cur f s) = withPage p pre x (f ++ [cur]) s.
Proof.
  intros <-. unfold undo, withPage. simpl.
  rewrite !orEmpty_insert_eq, last_snoc, length_app. simpl.
  replace (length pre + 1 =? 0)%nat with false by (symmetry; apply Nat.eqb_neq; lia).
  replace (length pre + 1 - 1)%nat with (length pre) by lia.
  rewrite take_app_length.
  unfold setDrawings, setHistory, setFuture. simpl.
  rewrite !insert_insert_eq. reflexivity.
Qed.

Lemma redo_withPage (p : Z) (h : list (list Drawing.t)) (x cur : list Drawing.t)
    (f : list (list Drawing.t)) (s : State) :
  activePage s = p ->
  redo (withPage p h cur (f ++ [x]) s) = withPage p (h ++ [cur]) x f s.
Proof.
  intros <-. unfold redo, withPage. simpl.
  rewrite !orEmpty_insert_eq, last_snoc, length_app. simpl.
  replace (length f + 1 =? 0)%nat with false by (symmetry; apply Nat.eqb_neq; lia).
  replace (length f + 1 - 1)%nat with (length f) by lia.
  rewrite take_app_length.
  unfold setDrawings, setHistory, setFuture. simpl.
  rewrite !insert_insert_eq. reflexivity.
Qed.

Section Timeline.
  Variables (p : Z) (T : list (list Drawing.t)) (s : State).
  Hypothesis active : activePage s = p.

Lemma undo_atIndex (i : nat) :
  (S i < length T)%nat -> undo (atIndex p T (S i) s) = atIndex p T i s.
Proof.
  intros Hi. unfold atIndex.
  destruct (lookup_lt_is_Some_2 T i) as [a Ha]; [lia|].
  destruct (lookup_lt_is_Some_2 T (S i)) as [b Hb]; [lia|].
  rewrite (take_S_r T i a Ha), (list_lookup_total_correct T i a Ha),
    (list_lookup_total_correct T (S i) b Hb).
  rewrite (drop_S T b (S i) Hb), reverse_cons.
  apply undo_withPage. exact active.
Qed.

Lemma redo_atIndex (i : nat) :
  (S i < length T)%nat -> redo (atIndex p T i s) = atIndex p T (S i) s.
Proof.
  intros Hi. unfold atIndex.
  destruct (lookup_lt_is_Some_2 T i) as [a Ha]; [lia|].
  destruct (lookup_lt_is_Some_2 T (S i)) as [b Hb]; [lia|].
  rewrite (take_S_r T i a Ha), (list_lookup_total_correct T i a Ha),
    (list_lookup_total_correct T (S i) b Hb).
  rewrite (drop_S T b (S i) Hb), reverse_cons.
  apply redo_withPage. exact active.
Qed.

Lemma iter_undo_atIndex (k i : nat) :
  (i + k < length T)%nat ->
  Nat.iter k undo (atIndex p T (i + k) s) = atIndex p T i s.
Proof.
  induction k as [|k IH]; intros Hk.
  - simpl. rewrite Nat.add_0_r. reflexivity.
  - rewrite Nat.iter_succ_r, Nat.add_succ_r, undo_atIndex by lia.
    apply IH. lia.
Qed.

Lemma iter_redo_atIndex (k i : nat) :
  (i + k < length T)%nat ->
  Nat.iter k redo (atIndex p T i s) = atIndex p T (i + k) s.
Proof.
  induction k as [|k IH]; intros Hk.
  - simpl. rewrite Nat.add_0_r. reflexivity.
  - simpl. rewrite IH by lia. rewrite Nat.add_succ_r.
    apply redo_atIndex. lia.
Qed.

End Timeline.

(** ** N commits, N undos, N redos *)

Lemma run_commits_snoc (p : Z) (gs : list Gesture) (g : Gesture) (s0 : State) :
  run s0 (flat_map (gestureInputs p) (gs ++ [g]))
  = run (run s0 (flat_map (gestureInputs p) gs)) (gestureInputs p g).
Proof. rewrite flat_map_app, run_app. simpl. rewrite app_nil_r. reflexivity. Qed.

(** What [N] commits on page [p] leave behind: the strokes in order, one
    snapshot per commit, the oldest snapshot being the empty page. *)
Lemma commits_invariant (p : Z) (gs : list Gesture) (s0 : State) :
  isDrawingMode s0 = true -> activePage s0 = p ->
  orEmpty (drawings s0) p = [] -> orEmpty (history s0) p = [] ->
  let s1 := run s0 (flat_map (gestureInputs p) gs) in
  isDrawingMode s1 = true /\ activePage s1 = p /\
  orEmpty (drawings s1) p = map strokeOf gs /\
  length (orEmpty (history s1) p) = length gs /\
  head (orEmpty (history s1) p ++ [orEmpty (drawings s1) p]) = Some [].
Proof.
  intros Hm Ha Hd Hh. cbv zeta.
  induction gs as [|g gs IH] using rev_ind.
  - simpl. rewrite Hd, Hh. auto.
  - destruct IH as (IHm & IHa & IHd & IHl & IHhd).
    rewrite run_commits_snoc, run_gesture by exact IHm. simpl.
    rewrite !orEmpty_insert_eq, IHd, map_app, !length_app, IHl. simpl.
    repeat split; try assumption.
    rewrite <- IHd. apply head_app_Some. left. exact IHhd.
Qed.

(** C1: starting from a page with no strokes and no history, after any [N]
    stroke commits on that page, [N] undos leave the page's live stroke
    sequence empty, and [N] redos after them restore the state reached by
    the commits, the [N] strokes in their original order. *)
Theorem undo_all_then_redo_all (p : Z) (gs : list Gesture) (s0 : State) :
  isDrawingMode s0 = true -> activePage s0 = p ->
  orEmpty (drawings s0) p = [] -> orEmpty (history s0) p = [] ->
  let N := length gs in
  let s1 := run s0 (flat_map (gestureInputs p) gs) in
  let s2 := Nat.iter N undo s1 in
  let s3 := Nat.iter N redo s2 in
  orEmpty (drawings s1) p = map strokeOf gs /\
  orEmpty (drawings s2) p = [] /\
  s3 = s1 /\
  orEmpty (drawings s3) p = map strokeOf gs.
Proof.
  intros Hm Ha Hd Hh. cbv zeta.
  pose proof (commits_invariant p gs s0 Hm Ha Hd Hh) as Hinv. cbv zeta in Hinv.
  destruct Hinv as (_ & _ & Hlive & _ & _).
  destruct gs as [|g gs _] using rev_ind.
  { simpl. rewrite Hd. auto. }
  clear Hlive.
  pose proof (commits_invariant p gs s0 Hm Ha Hd Hh) as Hinv. cbv zeta in Hinv.
  destruct Hinv as (IHm & IHa & IHd & IHl & IHhd).
  rewrite run_commits_snoc, run_gesture by exact IHm.
  set (s' := run s0 (flat_map (gestureInputs p) gs)) in *.
  set (H := orEmpty (history s') p ++ [orEmpty (drawings s') p]) in *.
  set (L := orEmpty (drawings s') p ++ [strokeOf g]).
  set (base := setCurrentPath [] (setPenColor (gColor g) s')).
  set (T := H ++ [L]).
  assert (HlenH : length H = length (gs ++ [g])).
  { subst H. rewrite !length_app, IHl. reflexivity. }
  assert (Hbase : activePage base = p) by exact IHa.
  assert (Hs1 : mkState (activePage s') (<[p := L]> (drawings s')) true (gColor g) []
                        (<[p := H]> (history s')) (<[p := []]> (future s'))
                = atIndex p T (length (gs ++ [g])) base).
  { unfold atIndex, withPage, base, T. simpl. rewrite IHm.
    rewrite (take_app_length' H [L] _ (eq_sym HlenH)).
    rewrite (list_lookup_total_correct (H ++ [L]) (length (gs ++ [g])) L)
      by (rewrite <- HlenH; apply list_lookup_middle; reflexivity).
    rewrite drop_ge by (generalize HlenH; rewrite !length_app; simpl; lia).
    reflexivity. }
  rewrite Hs1.
  assert (HlenT : (0 + length (gs ++ [g]) < length T)%nat).
  { unfold T. generalize HlenH. rewrite !length_app. simpl. lia. }
  pose proof (iter_undo_atIndex p T base Hbase (length (gs ++ [g])) 0 HlenT) as Hu.
  pose proof (iter_redo_atIndex p T base Hbase (length (gs ++ [g])) 0 HlenT) as Hr.
  simpl in Hu, Hr. rewrite Hu, Hr.
  assert (HT0 : T !!! 0%nat = []).
  { apply list_lookup_total_correct. unfold T. rewrite <- head_lookup.
    apply head_app_Some. left. exact IHhd. }
  repeat split.
  - rewrite <- Hs1. simpl. rewrite orEmpty_insert_eq. unfold L.
    rewrite IHd, map_app. reflexivity.
  - unfold atIndex, withPage. simpl. rewrite orEmpty_insert_eq. exact HT0.
  - rewrite <- Hs1. simpl. rewrite orEmpty_insert_eq. unfold L.
    rewrite IHd, map_app. reflexivity.
Qed.

(** ** Single-point captures *)

Lemma run_begin_end (touch : bool) (e : PointerEvent) (p now : Z) (s : State) :
  isDrawingMode s = true ->
  run s [if touch then TouchStart e p else MouseDown e p; End p now]
  = mkState (activePage s)
            (<[p := orEmpty (drawings s) p ++ [newDrawing now (penColor s) [normalized e]]]>
               (drawings s))
            true (penColor s) []
            (<[p := orEmpty (history s) p ++ [orEmpty (drawings s) p]]> (history s))
            (<[p := []]> (future s)).
Proof.
  intros Hm. rewrite !run_cons.
  assert (Hdown : step s (if touch then TouchStart e p else MouseDown e p)
                  = setCurrentPath [normalized e] s).
  { destruct touch; simpl; unfold handleTouchStart, handleMouseDown; rewrite Hm;
      reflexivity. }
  rewrite Hdown. simpl. rewrite handleEnd_commit; [reflexivity | exact Hm | discriminate].
Qed.

(** C5 fails as stated: in drawing mode a begin followed at once by an end
    commits the one recorded point as a stroke and takes a snapshot. *)
Lemma begin_end_without_move_counterexample :
  let s1 := run drawingState [MouseDown (eventAt 300 400 600 800) 1; End 1 1700000000000] in
  orEmpty (drawings drawingState) 1 = [] /\
  orEmpty (history drawingState) 1 = [] /\
  orEmpty (drawings s1) 1
  = [Drawing.mk "draw-1700000000000" "#ef4444" 4 [Point.mk 0.5 0.5]] /\
  orEmpty (history s1) 1 = [[]].
Proof. vm_compute. repeat split. Qed.

(** C5, amended: with drawing mode on, a begin followed immediately by an
    end appends a single-point stroke to the page's store and takes one
    history snapshot; an end that finds the in-progress path empty appends
    nothing and takes no snapshot. *)
Theorem begin_end_commits_single_point (touch : bool) (e : PointerEvent) (p now : Z)
    (s : State) :
  (isDrawingMode s = true ->
   let s' := run s [if touch then TouchStart e p else MouseDown e p; End p now] in
   drawings s' !! p
   = Some (orEmpty (drawings s) p ++ [newDrawing now (penColor s) [normalized e]]) /\
   history s' !! p = Some (orEmpty (history s) p ++ [orEmpty (drawings s) p])) /\
  (currentPath s = [] -> handleEnd p now s = s).
Proof.
  split.
  - intros Hm. cbv zeta. rewrite run_begin_end by exact Hm. simpl.
    rewrite !lookup_insert_eq. auto.
  - intros Hp. apply handleEnd_ignored. right. exact Hp.
Qed.

(** ** Drawing mode switched off during a capture *)

Lemma moves_ignored_when_off (touch : bool) (moves : list PointerEvent) (s : State) :
  isDrawingMode s = false ->
  run s (map (if touch then TouchMove else MouseMove) moves) = s.
Proof.
  intros Hm. induction moves as [|e moves IH]; [reflexivity|].
  rewrite map_cons, run_cons.
  replace (step s ((if touch then TouchMove else MouseMove) e)) with s; [exact IH|].
  destruct touch; simpl; unfold handleTouchMove, handleMouseMove; rewrite Hm; reflexivity.
Qed.

(** C6 fails as stated: once drawing mode is off, the end event commits
    nothing; the captured path stays in the buffer. *)
Lemma end_after_toggle_off_counterexample :
  let s0 := run drawingState
              [MouseDown (eventAt 300 400 600 800) 1; MouseMove (eventAt 450 600 600 800);
               ToggleDrawing] in
  let s1 := run s0 [End 1 1700000000000] in
  currentPath s0 = [Point.mk 0.5 0.5; Point.mk 0.75 0.75] /\
  isDrawingMode s0 = false /\
  s1 = s0 /\
  orEmpty (drawings s1) 1 = [].
Proof. vm_compute. repeat split. Qed.

(** C6, amended: if drawing mode is toggled off while a capture is in
    progress, every subsequent move event is ignored and so is the end or
    leave event: nothing is committed and the captured path stays in the
    buffer; an end event commits it only after drawing mode has been
    switched on again. *)
Theorem toggle_off_freezes_capture (s : State) :
  isDrawingMode s = true -> currentPath s <> [] ->
  let s' := toggleDrawingMode s in
  (forall (touch : bool) (moves : list PointerEvent),
      run s' (map (if touch then TouchMove else MouseMove) moves) = s') /\
  (forall p now : Z, handleEnd p now s' = s') /\
  currentPath s' = currentPath s /\
  (forall p now : Z,
      drawings (handleEnd p now (toggleDrawingMode s')) !! p
      = Some (orEmpty (drawings s) p ++ [newDrawing now (penColor s) (currentPath s)])).
Proof.
  intros Hm Hp. cbv zeta.
  assert (Hoff : isDrawingMode (toggleDrawingMode s) = false).
  { unfold toggleDrawingMode. simpl. rewrite Hm. reflexivity. }
  repeat split.
  - intros touch moves. apply moves_ignored_when_off. exact Hoff.
  - intros p now. apply handleEnd_ignored. left. exact Hoff.
  - intros p now. rewrite handleEnd_commit.
    + simpl. rewrite lookup_insert_eq. reflexivity.
    + unfold toggleDrawingMode. simpl. rewrite Hm. reflexivity.
    + exact Hp.
Qed.

(** ** Blending *)

(** C8: for a stroke the compositor draws, the eraser sentinel selects the
    clearing blend [destination-out] with the fixed width 20, any other
    colour selects [source-over] with the stroke's own colour and width;
    caps and joins are round in both cases. *)
Theorem stroke_blend_by_color (W H : float) (d : Drawing.t) (ctx : Ctx) :
  (2 <= length (Drawing.points d))%nat ->
  exists op,
    painted (drawPath W H (Drawing.points d) (Drawing.color d) (Drawing.strokeWidth d) ctx)
    = painted ctx ++ [Stroke op] /\
    strokeCap op = "round" /\ strokeJoin op = "round" /\
    (Drawing.color d = "eraser" ->
     strokeComposite op = "destination-out" /\ strokeLineWidth op = 20%float) /\
    (Drawing.color d <> "eraser" ->
     strokeComposite op = "source-over" /\ strokeColor op = Drawing.color d /\
     strokeLineWidth op = Drawing.strokeWidth d).
Proof.
  intros Hlen. eexists. split; [apply drawPath_paints; exact Hlen|]. simpl.
  destruct (String.eqb_spec (Drawing.color d) "eraser") as [He|He];
    repeat split; intros; congruence.
Qed.

(** ** Strokes of fewer than two points *)

Lemma drawPath_short (W H : float) (pts : list Point.t) (color : string) (width : float)
    (ctx : Ctx) :
  (length pts < 2)%nat -> drawPath W H pts color width ctx = ctx.
Proof.
  intros Hlen. unfold drawPath.
  destruct (Nat.ltb_spec (length pts) 2); [reflexivity | lia].
Qed.

(** C10: a stroke committed with fewer than two points is appended to the
    page's store and takes part in undo and redo like any other, while
    [drawPath] returns without painting anything for it. *)
Theorem short_stroke_kept_but_not_drawn (p now : Z) (s : State) :
  isDrawingMode s = true -> activePage s = p ->
  currentPath s <> [] -> (length (currentPath s) < 2)%nat ->
  let d := newDrawing now (penColor s) (currentPath s) in
  let s1 := handleEnd p now s in
  drawings s1 !! p = Some (orEmpty (drawings s) p ++ [d]) /\
  history s1 !! p = Some (orEmpty (history s) p ++ [orEmpty (drawings s) p]) /\
  drawings (undo s1) !! p = Some (orEmpty (drawings s) p) /\
  future (undo s1) !! p = Some [orEmpty (drawings s) p ++ [d]] /\
  drawings (redo (undo s1)) !! p = Some (orEmpty (drawings s) p ++ [d]) /\
  (forall (W H : float) (ctx : Ctx),
      drawPath W H (Drawing.points d) (Drawing.color d) (Drawing.strokeWidth d) ctx = ctx).
Proof.
  intros Hm Ha Hp Hlen. cbv zeta.
  rewrite handleEnd_commit_withPage by assumption.
  rewrite undo_withPage by exact Ha.
  rewrite redo_withPage by exact Ha.
  unfold withPage. simpl. rewrite !lookup_insert_eq.
  repeat split.
  intros W H ctx. apply drawPath_short. exact Hlen.
Qed.

(** ** The theorems at concrete inputs *)

Lemma undo_all_then_redo_all_witness :
  let s1 := run drawingState (flat_map (gestureInputs 1) [gestureA; gestureB]) in
  orEmpty (drawings s1) 1 = map strokeOf [gestureA; gestureB] /\
  orEmpty (drawings (Nat.iter 2 undo s1)) 1 = [] /\
  Nat.iter 2 redo (Nat.iter 2 undo s1) = s1 /\
  orEmpty (drawings (Nat.iter 2 redo (Nat.iter 2 undo s1))) 1
  = map strokeOf [gestureA; gestureB].
Proof.
  apply (undo_all_then_redo_all 1 [gestureA; gestureB] drawingState); reflexivity.
Defined.

Lemma undo_redo_empty_stack_noop_witness :
  undo drawingState = drawingState /\ redo drawingState = drawingState.
Proof.
  split; apply (undo_redo_empty_stack_noop drawingState); reflexivity.
Defined.

Lemma mutation_snapshots_and_clears_future_witness :
  (history (handleEnd 1 1700000001000 capturingState) !! 1
   = Some (orEmpty (history capturingState) 1 ++ [orEmpty (drawings capturingState) 1]) /\
   future (handleEnd 1 1700000001000 capturingState) !! 1 = Some [] /\
   drawings (handleEnd 1 1700000001000 capturingState) !! 1
   = Some (orEmpty (drawings capturingState) 1
           ++ [newDrawing 1700000001000 "eraser" [Point.mk 0.5 0.5]])) /\
  (history (clearPageDrawings capturingState) !! 1
   = Some (orEmpty (history capturingState) 1 ++ [orEmpty (drawings capturingState) 1]) /\
   future (clearPageDrawings capturingState) !! 1 = Some [] /\
   drawings (clearPageDrawings capturingState) !! 1 = Some []).
Proof.
  split.
  - apply (proj1 (mutation_snapshots_and_clears_future capturingState) 1 1700000001000).
    + reflexivity.
    + vm_compute. discriminate.
  - apply (proj2 (mutation_snapshots_and_clears_future capturingState)).
    vm_compute. discriminate.
Defined.

Lemma clear_empty_page_noop_witness : clearPageDrawings drawingState = drawingState.
Proof. apply (clear_empty_page_noop drawingState). reflexivity. Defined.

Lemma begin_end_commits_single_point_witness :
  drawings (run drawingState [MouseDown (eventAt 300 400 600 800) 1; End 1 1700000000000]) !! 1
  = Some [newDrawing 1700000000000 "#ef4444" [Point.mk 0.5 0.5]] /\
  history (run drawingState [MouseDown (eventAt 300 400 600 800) 1; End 1 1700000000000]) !! 1
  = Some [[]].
Proof.
  apply (proj1 (begin_end_commits_single_point false (eventAt 300 400 600 800) 1
                  1700000000000 drawingState)).
  reflexivity.
Defined.

Lemma toggle_off_freezes_capture_witness :
  let s' := toggleDrawingMode capturingState in
  (forall (touch : bool) (moves : list PointerEvent),
      run s' (map (if touch then TouchMove else MouseMove) moves) = s') /\
  (forall p now : Z, handleEnd p now s' = s') /\
  currentPath s' = currentPath capturingState /\
  (forall p now : Z,
      drawings (handleEnd p now (toggleDrawingMode s')) !! p
      = Some (orEmpty (drawings capturingState) p
              ++ [newDrawing now (penColor capturingState) (currentPath capturingState)])).
Proof.
  apply (toggle_off_freezes_capture capturingState).
  - reflexivity.
  - vm_compute. discriminate.
Defined.

Lemma stroke_blend_by_color_witness :
  exists op,
    painted (drawPath 1200 1600 (Drawing.points (strokeOf gestureB))
               (Drawing.color (strokeOf gestureB)) (Drawing.strokeWidth (strokeOf gestureB))
               freshCtx)
    = painted freshCtx ++ [Stroke op] /\
    strokeCap op = "round" /\ strokeJoin op = "round" /\
    (Drawing.color (strokeOf gestureB) = "eraser" ->
     strokeComposite op = "destination-out" /\ strokeLineWidth op = 20%float) /\
    (Drawing.color (strokeOf gestureB) <> "eraser" ->
     strokeComposite op = "source-over" /\ strokeColor op = Drawing.color (strokeOf gestureB) /\
     strokeLineWidth op = Drawing.strokeWidth (strokeOf gestureB)).
Proof.
  apply (stroke_blend_by_color 1200 1600 (strokeOf gestureB) freshCtx).
  simpl. lia.
Defined.

Lemma pages_are_independent_witness :
  (forall now : Z, samePage 2 capturingState (handleEnd 1 now capturingState)) /\
  samePage 2 capturingState (undo capturingState) /\
  samePage 2 capturingState (redo capturingState) /\
  samePage 2 capturingState (clearPageDrawings capturingState).
Proof.
  destruct (pages_are_independent 1 2 capturingState) as [Hc Hu].
  - discriminate.
  - split; [exact Hc | apply Hu; reflexivity].
Defined.

Lemma short_stroke_kept_but_not_drawn_witness :
  let d := newDrawing 1700000001000 (penColor capturingState) (currentPath capturingState) in
  let s1 := handleEnd 1 1700000001000 capturingState in
  drawings s1 !! 1 = Some (orEmpty (drawings capturingState) 1 ++ [d]) /\
  history s1 !! 1
  = Some (orEmpty (history capturingState) 1 ++ [orEmpty (drawings capturingState) 1]) /\
  drawings (undo s1) !! 1 = Some (orEmpty (drawings capturingState) 1) /\
  future (undo s1) !! 1 = Some [orEmpty (drawings capturingState) 1 ++ [d]] /\
  drawings (redo (undo s1)) !! 1 = Some (orEmpty (drawings capturingState) 1 ++ [d]) /\
  (forall (W H : float) (ctx : Ctx),
      drawPath W H (Drawing.points d) (Drawing.color d) (Drawing.strokeWidth d) ctx = ctx).
Proof.
  apply (short_stroke_kept_but_not_drawn 1 1700000001000 capturingState).
  - reflexivity.
  - reflexivity.
  - vm_compute. discriminate.
  - vm_compute. lia.
Defined.

Lemma normalized_points_scale_to_surface_witness :
  exists op,
    painted (drawPath 1200 1600 [Point.mk 0.5 0.5; Point.mk 0.25 0.75] "#ef4444" 4 freshCtx)
    = painted freshCtx ++ [Stroke op] /\
    map segXY (strokePath op) = [(600, 800); (300, 1200)]%float.
Proof.
  apply (proj1 normalized_points_scale_to_surface
           1200%float 1600%float [Point.mk 0.5 0.5; Point.mk 0.25 0.75] "#ef4444"
           4%float freshCtx).
  simpl. lia.
Defined.

(** ** The whole page render *)

Lemma drawPath_painted_ext (W H : float) (pts : list Point.t) (color : string)
    (width : float) (ctx : Ctx) :
  exists ops, painted (drawPath W H pts color width ctx) = painted ctx ++ ops.
Proof.
  destruct (Nat.lt_ge_cases (length pts) 2) as [Hlt|Hge].
  - exists []. rewrite drawPath_short by exact Hlt. rewrite app_nil_r. reflexivity.
  - eexists. apply drawPath_paints. exact Hge.
Qed.

Lemma foldl_drawPath_painted_ext (W H : float) (ds : list Drawing.t) (ctx : Ctx) :
  exists ops,
    painted (foldl (fun c d => drawPath W H (Drawing.points d) (Drawing.color d)
                                        (Drawing.strokeWidth d) c) ctx ds)
    = painted ctx ++ ops.
Proof.
  revert ctx. induction ds as [|d ds IH]; intros ctx; simpl.
  - exists []. rewrite app_nil_r. reflexivity.
  - destruct (IH (drawPath W H (Drawing.points d) (Drawing.color d)
                           (Drawing.strokeWidth d) ctx)) as [ops Hops].
    destruct (drawPath_painted_ext W H (Drawing.points d) (Drawing.color d)
                (Drawing.strokeWidth d) ctx) as [ops1 Hops1].
    exists (ops1 ++ ops). rewrite Hops, Hops1, app_assoc. reflexivity.
Qed.

(** Every committed stroke of the page that has at least two points is
    painted by [renderDrawings], along its scaled points and with the blend
    and width its colour selects. *)
Lemma renderDrawings_draws_every_stroke (cv : Canvas.t) (ctx : Ctx) (pageNum : Z)
    (s : State) (d : Drawing.t) :
  Canvas.getContext cv = Some ctx ->
  In d (orEmpty (drawings s) pageNum) ->
  (2 <= length (Drawing.points d))%nat ->
  exists cv' ctx' op,
    renderDrawings (Some cv) pageNum s = Some cv' /\
    Canvas.getContext cv' = Some ctx' /\
    In (Stroke op) (painted ctx') /\
    strokePath op = pathOf (Canvas.width cv) (Canvas.height cv) (Drawing.points d) /\
    strokeComposite op
    = (if String.eqb (Drawing.color d) "eraser" then "destination-out" else "source-over") /\
    strokeLineWidth op
    = (if String.eqb (Drawing.color d) "eraser" then 20%float else Drawing.strokeWidth d) /\
    strokeCap op = "round" /\ strokeJoin op = "round".
Proof.
  intros Hctx Hin Hlen. unfold renderDrawings. rewrite Hctx.
  set (W := Canvas.width cv). set (H := Canvas.height cv).
  generalize (clearRect 0 0 W H ctx) as c0.
  induction (orEmpty (drawings s) pageNum) as [|d0 ds IH]; intros c0; [destruct Hin|].
  destruct Hin as [->|Hin].
  - simpl.
    destruct (foldl_drawPath_painted_ext W H ds
                (drawPath W H (Drawing.points d) (Drawing.color d)
                          (Drawing.strokeWidth d) c0)) as [ops Hops].
    eexists. eexists. eexists. split; [reflexivity|]. split; [reflexivity|]. simpl.
    rewrite Hops, (drawPath_paints W H _ _ _ c0 Hlen).
    split; [apply in_or_app; left; apply in_or_app; right; left; reflexivity|].
    simpl. repeat split.
  - simpl. apply (IH Hin).
Qed.

(** ** The scenario of the specification, run on the model *)

Example scenario_two_strokes :
  let A := strokeOf gestureA in
  let B := strokeOf gestureB in
  let s2 := annotatedState in
  A = Drawing.mk "draw-1700000000000" "#ef4444" 4 [Point.mk 0 0; Point.mk 1 1] /\
  Drawing.color B = "eraser" /\ Drawing.strokeWidth B = 20%float /\
  orEmpty (drawings s2) 1 = [A; B] /\
  orEmpty (drawings (run s2 [Undo])) 1 = [A] /\
  orEmpty (drawings (run s2 [Undo; Redo])) 1 = [A; B] /\
  orEmpty (drawings (run s2 [Undo; Redo; Undo; Undo])) 1 = [] /\
  run s2 [Undo; Redo; Undo; Undo; Undo] = run s2 [Undo; Redo; Undo; Undo].
Proof. vm_compute. repeat split. Qed.

(** While a capture holds at least two points, the effect of
    [DrawingCanvas] paints the in-progress path last, over the committed
    strokes, through the scaled points. *)
Lemma DrawingCanvas_effect_live_path (cv : Canvas.t) (ctx : Ctx) (pageNum : Z) (s : State) :
  Canvas.getContext cv = Some ctx ->
  (2 <= length (currentPath s))%nat ->
  exists cv' ctx' op,
    DrawingCanvas_effect (Some cv) pageNum s = Some cv' /\
    Canvas.getContext cv' = Some ctx' /\
    last (painted ctx') = Some (Stroke op) /\
    strokePath op = pathOf (Canvas.width cv) (Canvas.height cv) (currentPath s).
Proof.
  intros Hctx Hlen. unfold DrawingCanvas_effect, renderDrawings. rewrite Hctx.
  cbv zeta. cbn [Canvas.getContext Canvas.width Canvas.height].
  destruct (Nat.ltb_spec 0 (length (currentPath s))) as [_|?]; [|lia].
  destruct (Nat.ltb_spec 1 (length (currentPath s))) as [_|?]; [|lia].
  cbn [andb].
  eexists. eexists. eexists. split; [reflexivity|]. split; [reflexivity|].
  rewrite drawCurrentPath_paints
    by (destruct (currentPath s); [simpl in Hlen; lia | discriminate]).
  rewrite last_snoc. split; reflexivity.
Qed.

(** * Further properties of the drawing core *)

(** ** Undo and redo on an arbitrary state *)

Lemma undo_nonempty (s : State) (pre : list (list Drawing.t)) (x : list Drawing.t) :
  orEmpty (history s) (activePage s) = pre ++ [x] ->
  undo s = withPage (activePage s) pre x
             (orEmpty (future s) (activePage s) ++ [orEmpty (drawings s) (activePage s)]) s.
Proof.
  intros Hh. unfold undo. rewrite Hh, last_snoc, length_app. simpl.
  replace (length pre + 1 =? 0)%nat with false by (symmetry; apply Nat.eqb_neq; lia).
  replace (length pre + 1 - 1)%nat with (length pre) by lia.
  rewrite take_app_length. reflexivity.
Qed.

Lemma redo_nonempty (s : State) (f : list (list Drawing.t)) (x : list Drawing.t) :
  orEmpty (future s) (activePage s) = f ++ [x] ->
  redo s = withPage (activePage s)
             (orEmpty (history s) (activePage s) ++ [orEmpty (drawings s) (activePage s)])
             x f s.
Proof.
  intros Hf. unfold redo. rewrite Hf, last_snoc, length_app. simpl.
  replace (length f + 1 =? 0)%nat with false by (symmetry; apply Nat.eqb_neq; lia).
  replace (length f + 1 - 1)%nat with (length f) by lia.
  rewrite take_app_length. reflexivity.
Qed.

Lemma snoc_of_nonempty {A} (l : list A) : l <> [] -> exists pre x, l = pre ++ [x].
Proof.
  destruct l as [|a l] using rev_ind; [congruence|]. intros _. eauto.
Qed.

(** X1: redo undoes an undo, and undo undoes a redo: on the active page
    the live strokes and both stacks come back as they were, and nothing
    else in the state changes. *)
Theorem undo_redo_inverse (s : State) :
  let p := activePage s in
  (orEmpty (history s) p <> [] ->
   redo (undo s) = withPage p (orEmpty (history s) p) (orEmpty (drawings s) p)
                     (orEmpty (future s) p) s) /\
  (orEmpty (future s) p <> [] ->
   undo (redo s) = withPage p (orEmpty (history s) p) (orEmpty (drawings s) p)
                     (orEmpty (future s) p) s).
Proof.
  cbv zeta. split; intros Hne.
  - destruct (snoc_of_nonempty _ Hne) as (pre & x & Hh).
    rewrite (undo_nonempty s pre x Hh), redo_withPage by reflexivity.
    rewrite Hh. reflexivity.
  - destruct (snoc_of_nonempty _ Hne) as (f & x & Hf).
    rewrite (redo_nonempty s f x Hf), undo_withPage by reflexivity.
    rewrite Hf. reflexivity.
Qed.

Lemma empty_stack_keeps_state (s : State) :
  (orEmpty (history s) (activePage s) = [] -> undo s = s) /\
  (orEmpty (future s) (activePage s) = [] -> redo s = s).
Proof.
  split; intros H; [unfold undo | unfold redo]; rewrite H; reflexivity.
Qed.

Lemma timeline_withPage (p : Z) (h : list (list Drawing.t)) (l : list Drawing.t)
    (f : list (list Drawing.t)) (s : State) :
  timeline p (withPage p h l f s) = h ++ [l] ++ reverse f.
Proof. unfold timeline, withPage. simpl. rewrite !orEmpty_insert_eq. reflexivity. Qed.

Lemma timeline_samePage (q : Z) (s s' : State) :
  samePage q s s' -> timeline q s' = timeline q s.
Proof.
  intros (Hd & Hh & Hf). unfold timeline, orEmpty. rewrite Hd, Hh, Hf. reflexivity.
Qed.

(** X2: undo and redo never drop, duplicate or reorder a snapshot: on
    every page the sequence HistoryStack, live strokes, FutureStack (read
    in time order) is the same before and after. *)
Theorem undo_redo_keep_timeline (p : Z) (s : State) :
  timeline p (undo s) = timeline p s /\ timeline p (redo s) = timeline p s.
Proof.
  destruct (decide (activePage s = p)) as [<-|Hne].
  - split.
    + destruct (orEmpty (history s) (activePage s)) as [|a l] eqn:E using rev_ind.
      * rewrite (proj1 (empty_stack_keeps_state s) E). reflexivity.
      * rewrite (undo_nonempty s l a E), timeline_withPage. unfold timeline.
        rewrite E, reverse_snoc, <- !app_assoc. reflexivity.
    + destruct (orEmpty (future s) (activePage s)) as [|a l] eqn:E using rev_ind.
      * rewrite (proj2 (empty_stack_keeps_state s) E). reflexivity.
      * rewrite (redo_nonempty s l a E), timeline_withPage. unfold timeline.
        rewrite E, reverse_snoc, <- !app_assoc. reflexivity.
  - split; apply timeline_samePage; [apply undo_frame | apply redo_frame]; exact Hne.
Qed.

(** X3: clearing a page that has strokes can be undone: one undo brings
    the strokes back and leaves the HistoryStack as it was before the
    clear, with the cleared (empty) page as the only redo. *)
Theorem clear_then_undo_restores (s : State) :
  orEmpty (drawings s) (activePage s) <> [] ->
  let p := activePage s in
  undo (clearPageDrawings s)
  = withPage p (orEmpty (history s) p) (orEmpty (drawings s) p) [[]] s.
Proof.
  intros Hne. cbv zeta. rewrite clearPageDrawings_nonempty by exact Hne.
  change (mkState _ _ _ _ _ _ _)
    with (withPage (activePage s)
            (orEmpty (history s) (activePage s) ++ [orEmpty (drawings s) (activePage s)])
            [] [] s).
  rewrite undo_withPage by reflexivity. reflexivity.
Qed.

(** X4: a second end event commits nothing: the mouse leaving the canvas
    after the button was released, on whatever page, finds the state that
    the first end event left. *)
Theorem second_end_is_ignored (p q now now' : Z) (s : State) :
  handleEnd q now' (handleEnd p now s) = handleEnd p now s.
Proof.
  destruct (isDrawingMode s) eqn:Hm.
  - destruct (currentPath s) as [|pt path] eqn:Hp.
    + rewrite (handleEnd_ignored p now s) by (right; exact Hp).
      apply handleEnd_ignored. right. exact Hp.
    + rewrite (handleEnd_commit p now s Hm) by (rewrite Hp; discriminate).
      apply handleEnd_ignored. right. reflexivity.
  - rewrite (handleEnd_ignored p now s) by (left; exact Hm).
    apply handleEnd_ignored. left. exact Hm.
Qed.

(** X5: outside drawing mode the pointer cannot change anything: every
    sequence of down, move and end events, by mouse or touch, leaves the
    whole state as it is. *)
Theorem pointer_ignored_outside_drawing_mode (s : State) (inputs : list Input) :
  isDrawingMode s = false ->
  Forall (fun i => isPointerInput i = true) inputs ->
  run s inputs = s.
Proof.
  intros Hm Hall. induction Hall as [|i inputs Hi _ IH]; [reflexivity|].
  rewrite run_cons. replace (step s i) with s; [exact IH|].
  destruct i; try discriminate Hi; simpl;
    unfold handleMouseDown, handleMouseMove, handleTouchStart, handleTouchMove, handleEnd;
    rewrite Hm; reflexivity.
Qed.

(** X6: without a begin event nothing is captured: from a state with no
    capture in progress, every sequence of move and end events leaves the
    whole state as it is. *)
Theorem moves_and_ends_need_a_begin (s : State) (inputs : list Input) :
  currentPath s = [] ->
  Forall (fun i => isMoveOrEnd i = true) inputs ->
  run s inputs = s.
Proof.
  intros Hp Hall. induction Hall as [|i inputs Hi _ IH]; [reflexivity|].
  rewrite run_cons. replace (step s i) with s; [exact IH|].
  destruct i; try discriminate Hi; simpl;
    unfold handleMouseMove, handleTouchMove, handleEnd;
    rewrite Hp; simpl; rewrite orb_true_r; reflexivity.
Qed.

(** X7: the HistoryStack has no cap: [N] commits on a page, from any state
    in drawing mode, append the [N] strokes in order to the page and make
    its HistoryStack exactly [N] longer, the snapshots that were there
    staying at the bottom. *)
Theorem commits_grow_history (p : Z) (gs : list Gesture) (s0 : State) :
  isDrawingMode s0 = true ->
  let s1 := run s0 (flat_map (gestureInputs p) gs) in
  orEmpty (drawings s1) p = orEmpty (drawings s0) p ++ map strokeOf gs /\
  length (orEmpty (history s1) p) = (length (orEmpty (history s0) p) + length gs)%nat /\
  orEmpty (history s0) p `prefix_of` orEmpty (history s1) p /\
  isDrawingMode s1 = true.
Proof.
  intros Hm. cbv zeta. induction gs as [|g gs IH] using rev_ind.
  - simpl. rewrite app_nil_r, Nat.add_0_r. auto.
  - destruct IH as (IHd & IHl & IHp & IHm).
    rewrite run_commits_snoc, run_gesture by exact IHm. simpl.
    rewrite !orEmpty_insert_eq, IHd, map_app, !length_app, IHl. simpl.
    repeat split.
    + rewrite <- app_assoc. reflexivity.
    + lia.
    + apply prefix_app_r. exact IHp.
Qed.

(** ** Further properties of the compositor *)

Lemma foldl_drawPath_strokes (W H : float) (ds : list Drawing.t) (ctx : Ctx) :
  exists sops,
    painted (foldl (fun c d => drawPath W H (Drawing.points d) (Drawing.color d)
                                        (Drawing.strokeWidth d) c) ctx ds)
    = painted ctx ++ map Stroke sops /\
    map strokePath sops
    = map (fun d => pathOf W H (Drawing.points d))
          (filter (fun d => (2 <= length (Drawing.points d))%nat) ds).
Proof.
  revert ctx. induction ds as [|d ds IH]; intros ctx.
  - exists []. simpl. rewrite app_nil_r. split; reflexivity.
  - simpl.
    destruct (decide (2 <= length (Drawing.points d))%nat) as [Hge|Hlt].
    + destruct (IH (drawPath W H (Drawing.points d) (Drawing.color d)
                             (Drawing.strokeWidth d) ctx)) as (sops & Hp & Hs).
      rewrite (drawPath_paints W H _ _ _ ctx Hge) in Hp.
      eexists (_ :: sops). split.
      * rewrite Hp, <- app_assoc. reflexivity.
      * rewrite filter_cons_True by exact Hge. simpl. rewrite Hs. reflexivity.
    + rewrite drawPath_short by lia.
      destruct (IH ctx) as (sops & Hp & Hs).
      exists sops. split; [exact Hp|].
      rewrite filter_cons_False by exact Hlt. exact Hs.
Qed.

(** X8: [renderDrawings] first clears the surface and then paints the
    page's strokes in store order, one paint operation for each stroke of
    at least two points and none for the others, each along its scaled
    points. *)
Theorem renderDrawings_paint_order (cv : Canvas.t) (ctx : Ctx) (pageNum : Z) (s : State) :
  Canvas.getContext cv = Some ctx ->
  exists ctx' sops,
    renderDrawings (Some cv) pageNum s
    = Some (Canvas.mk (Canvas.width cv) (Canvas.height cv) (Some ctx')) /\
    painted ctx'
    = painted ctx ++ ClearRect 0 0 (Canvas.width cv) (Canvas.height cv) :: map Stroke sops /\
    map strokePath sops
    = map (fun d => pathOf (Canvas.width cv) (Canvas.height cv) (Drawing.points d))
          (filter (fun d => (2 <= length (Drawing.points d))%nat)
                  (orEmpty (drawings s) pageNum)).
Proof.
  intros Hctx. unfold renderDrawings. rewrite Hctx. cbv zeta.
  destruct (foldl_drawPath_strokes (Canvas.width cv) (Canvas.height cv)
              (orEmpty (drawings s) pageNum)
              (clearRect 0 0 (Canvas.width cv) (Canvas.height cv) ctx))
    as (sops & Hp & Hs).
  eexists. exists sops. split; [reflexivity|]. split; [|exact Hs].
  rewrite Hp. simpl. rewrite <- app_assoc. reflexivity.
Qed.

Lemma drawPath_composite (W H : float) (pts : list Point.t) (color : string)
    (width : float) (ctx : Ctx) :
  globalCompositeOperation ctx = "source-over" ->
  globalCompositeOperation (drawPath W H pts color width ctx) = "source-over".
Proof.
  intros Hg. unfold drawPath.
  destruct (length pts <? 2)%nat; [exact Hg|].
  destruct pts; [exact Hg | reflexivity].
Qed.

Lemma foldl_drawPath_composite (W H : float) (ds : list Drawing.t) (ctx : Ctx) :
  globalCompositeOperation ctx = "source-over" ->
  globalCompositeOperation
    (foldl (fun c d => drawPath W H (Drawing.points d) (Drawing.color d)
                                (Drawing.strokeWidth d) c) ctx ds) = "source-over".
Proof.
  revert ctx. induction ds as [|d ds IH]; intros ctx Hg; [exact Hg|].
  simpl. apply IH, drawPath_composite, Hg.
Qed.

(** X9: the eraser's blend never leaks: when the context composites with
    [source-over] before the effect of [DrawingCanvas] runs, it does so
    again afterwards, whatever strokes and in-progress path were painted. *)
Theorem effect_restores_source_over (cv : Canvas.t) (ctx : Ctx) (pageNum : Z) (s : State) :
  Canvas.getContext cv = Some ctx ->
  globalCompositeOperation ctx = "source-over" ->
  exists ctx',
    DrawingCanvas_effect (Some cv) pageNum s
    = Some (Canvas.mk (Canvas.width cv) (Canvas.height cv) (Some ctx')) /\
    globalCompositeOperation ctx' = "source-over".
Proof.
  intros Hctx Hg. unfold DrawingCanvas_effect, renderDrawings. rewrite Hctx.
  cbv zeta. cbn [Canvas.getContext Canvas.width Canvas.height].
  set (c1 := foldl _ _ _).
  assert (Hc1 : globalCompositeOperation c1 = "source-over")
    by (apply foldl_drawPath_composite; exact Hg).
  destruct ((0 <? length (currentPath s))%nat && (1 <? length (currentPath s))%nat).
  - eexists. split; [reflexivity|].
    unfold drawCurrentPath. destruct (currentPath s); [exact Hc1 | reflexivity].
  - eexists. split; [reflexivity | exact Hc1].
Qed.

(** X10: what is seen while drawing is what is committed: for a path of
    at least two points the in-progress overlay and the later rendering of
    the committed stroke act on the context in exactly the same way. *)
Theorem preview_matches_committed_stroke (W H : float) (pts : list Point.t)
    (penColor : string) (now : Z) (ctx : Ctx) :
  (2 <= length pts)%nat ->
  let d := newDrawing now penColor pts in
  drawCurrentPath W H pts penColor ctx
  = drawPath W H (Drawing.points d) (Drawing.color d) (Drawing.strokeWidth d) ctx.
Proof.
  intros Hlen. cbv zeta. unfold drawPath, drawCurrentPath, newDrawing. simpl.
  destruct (Nat.ltb_spec (length pts) 2); [lia|].
  destruct pts as [|p0 rest]; [reflexivity|].
  destruct (String.eqb penColor "eraser"); reflexivity.
Qed.

(** X11: stroke identifiers come from the clock alone: two committed
    strokes have the same [id] exactly when they were committed in the
    same millisecond. *)
Theorem stroke_ids_equal_iff_same_time (now now' : Z) (c c' : string)
    (pts pts' : list Point.t) :
  Drawing.id (newDrawing now c pts) = Drawing.id (newDrawing now' c' pts')
  <-> now = now'.
Proof.
  simpl. split.
  - intros Heq. injection Heq as Heq. exact (pretty_Z_inj now now' Heq).
  - intros ->. reflexivity.
Qed.

(** * Properties of the viewer around the drawing core *)

(** ** Loading a document *)

(** X12: [resetViewer] discards every drawing and all undo and redo
    history: afterwards each page is empty, and undo, redo and clear do
    nothing whichever page is active.  Annotations and running analyses
    are dropped, page 1 is active and the mode is READ.  Drawing mode, pen
    colour, a capture in progress, the file and the page count are not
    touched. *)
Theorem resetViewer_discards_drawings (v : Viewer) :
  let v' := resetViewer v in
  (forall p : Z,
      orEmpty (drawings (core v')) p = [] /\ orEmpty (history (core v')) p = [] /\
      orEmpty (future (core v')) p = []) /\
  (forall a : Z,
      let s := setActivePage a (core v') in
      undo s = s /\ redo s = s /\ clearPageDrawings s = s) /\
  annotations v' = ∅ /\ analyzingPages v' = ∅ /\ studyMode v' = READ /\
  activePage (core v') = 1 /\
  isDrawingMode (core v') = isDrawingMode (core v) /\
  penColor (core v') = penColor (core v) /\
  currentPath (core v') = currentPath (core v) /\
  file v' = file v /\ numPages v' = numPages v.
Proof.
  cbv zeta. split; [|split].
  - intros p. unfold orEmpty. simpl. rewrite !lookup_empty. auto.
  - intros a. unfold undo, redo, clearPageDrawings, orEmpty. simpl.
    rewrite !lookup_empty. auto.
  - simpl. repeat split.
Qed.

(** X13: a dropped file that is not a PDF changes nothing and raises the
    alert; a dropped PDF, and a file chosen in the file dialog whatever
    its type, become the document, and only the first file counts.  The
    new document starts without drawings and without undo history. *)
Theorem loading_takes_first_file (f : File.t) (rest : list File.t) (v : Viewer) :
  (File.type f <> "application/pdf" ->
   onDrop (Some (f :: rest)) v = (v, Some "Please drop a PDF file.")) /\
  (File.type f = "application/pdf" ->
   onDrop (Some (f :: rest)) v = (resetViewer (setFile (Some (inl f)) v), None)) /\
  onFileChange (Some (f :: rest)) v
  = setIsUploadMenuOpen false (resetViewer (setFile (Some (inl f)) v)) /\
  file (onFileChange (Some (f :: rest)) v) = Some (inl f) /\
  drawings (core (onFileChange (Some (f :: rest)) v)) = ∅ /\
  history (core (onFileChange (Some (f :: rest)) v)) = ∅ /\
  future (core (onFileChange (Some (f :: rest)) v)) = ∅.
Proof.
  repeat split.
  - intros Hne. unfold onDrop.
    destruct (String.eqb_spec (File.type f) "application/pdf"); [contradiction | reflexivity].
  - intros He. unfold onDrop. rewrite He. reflexivity.
Qed.

(** ** Paging *)

(** X14: [scrollToPage] clamps: the page it makes active is never above
    the page count; with at least one page it lies between 1 and the page
    count and is the requested page whenever that one is in range; while
    the page count is below 1 (no document loaded yet) it is the page
    count itself, not a page. *)
Theorem scrollToPage_clamps (pageNum : Z) (v : Viewer) :
  let a := activePage (core (scrollToPage pageNum v)) in
  a <= numPages v /\
  (1 <= numPages v -> 1 <= a) /\
  (1 <= pageNum <= numPages v -> a = pageNum) /\
  (numPages v < 1 -> a = numPages v).
Proof. cbv zeta. simpl. lia. Qed.

Lemma nextPageButton_active (v : Viewer) :
  numPages (nextPageButton v) = numPages v /\
  activePage (core (nextPageButton v))
  = (if numPages v <=? activePage (core v) then activePage (core v)
     else Z.min (Z.max 1 (activePage (core v) + 1)) (numPages v)).
Proof.
  unfold nextPageButton. destruct (numPages v <=? activePage (core v)); split; reflexivity.
Qed.

Lemma previousPageButton_active (v : Viewer) :
  numPages (previousPageButton v) = numPages v /\
  activePage (core (previousPageButton v))
  = (if activePage (core v) <=? 1 then activePage (core v)
     else Z.min (Z.max 1 (activePage (core v) - 1)) (numPages v)).
Proof.
  unfold previousPageButton. destruct (activePage (core v) <=? 1); split; reflexivity.
Qed.

(** X15: with the active page inside the document, each pagination button
    moves by exactly one page and stays inside the document, does nothing
    at its end of the document, and the other button takes the step back. *)
Theorem pagination_steps_by_one (v : Viewer) :
  1 <= activePage (core v) <= numPages v ->
  let a := activePage (core v) in
  (a < numPages v ->
   activePage (core (nextPageButton v)) = a + 1 /\
   activePage (core (previousPageButton (nextPageButton v))) = a) /\
  (1 < a ->
   activePage (core (previousPageButton v)) = a - 1 /\
   activePage (core (nextPageButton (previousPageButton v))) = a) /\
  (a = numPages v -> nextPageButton v = v) /\
  (a = 1 -> previousPageButton v = v) /\
  1 <= activePage (core (nextPageButton v)) <= numPages v /\
  1 <= activePage (core (previousPageButton v)) <= numPages v.
Proof.
  intros Hr. cbv zeta.
  destruct (nextPageButton_active v) as [Hnn Hna].
  destruct (previousPageButton_active v) as [Hpn Hpa].
  destruct (previousPageButton_active (nextPageButton v)) as [_ Hpna].
  destruct (nextPageButton_active (previousPageButton v)) as [_ Hnpa].
  rewrite Hnn, Hna in Hpna. rewrite Hpn, Hpa in Hnpa.
  split; [|split; [|split; [|split; [|split]]]].
  - intros Ha. rewrite Hpna, Hna.
    destruct (Z.leb_spec (numPages v) (activePage (core v))); [lia|].
    destruct (Z.leb_spec (Z.min (Z.max 1 (activePage (core v) + 1)) (numPages v)) 1); lia.
  - intros Ha. rewrite Hnpa, Hpa.
    destruct (Z.leb_spec (activePage (core v)) 1); [lia|].
    destruct (Z.leb_spec (numPages v)
                (Z.min (Z.max 1 (activePage (core v) - 1)) (numPages v))); lia.
  - intros Ha. unfold nextPageButton.
    destruct (Z.leb_spec (numPages v) (activePage (core v))); [reflexivity | lia].
  - intros Ha. unfold previousPageButton.
    destruct (Z.leb_spec (activePage (core v)) 1); [reflexivity | lia].
  - rewrite Hna. destruct (Z.leb_spec (numPages v) (activePage (core v))); lia.
  - rewrite Hpa. destruct (Z.leb_spec (activePage (core v)) 1); lia.
Qed.

(** ** Toolbar *)

Lemma undoDisabled_spec (s : State) :
  undoDisabled s = true <-> orEmpty (history s) (activePage s) = [].
Proof.
  unfold undoDisabled, orEmpty.
  destruct (history s !! activePage s) as [[|x h]|]; simpl; split; congruence.
Qed.

Lemma redoDisabled_spec (s : State) :
  redoDisabled s = true <-> orEmpty (future s) (activePage s) = [].
Proof.
  unfold redoDisabled, orEmpty.
  destruct (future s !! activePage s) as [[|x f]|]; simpl; split; congruence.
Qed.

(** X16: the undo button is disabled exactly when undo would change
    nothing, and the redo button exactly when redo would change nothing. *)
Theorem buttons_disabled_iff_noop (s : State) :
  (undoDisabled s = true <-> undo s = s) /\
  (redoDisabled s = true <-> redo s = s).
Proof.
  split.
  - rewrite undoDisabled_spec. split; [apply empty_stack_keeps_state|].
    intros Hu.
    destruct (orEmpty (history s) (activePage s)) as [|x pre _] eqn:E using rev_ind;
      [reflexivity|].
    rewrite (undo_nonempty s pre x E) in Hu.
    apply (f_equal (fun t => length (orEmpty (history t) (activePage s)))) in Hu.
    unfold withPage in Hu. simpl in Hu. rewrite orEmpty_insert_eq, E, length_app in Hu.
    simpl in Hu. lia.
  - rewrite redoDisabled_spec. split; [apply empty_stack_keeps_state|].
    intros Hr.
    destruct (orEmpty (future s) (activePage s)) as [|x f _] eqn:E using rev_ind;
      [reflexivity|].
    rewrite (redo_nonempty s f x E) in Hr.
    apply (f_equal (fun t => length (orEmpty (future t) (activePage s)))) in Hr.
    unfold withPage in Hr. simpl in Hr. rewrite orEmpty_insert_eq, E, length_app in Hr.
    simpl in Hr. lia.
Qed.

(** ** Page analysis *)

Lemma findNextFrom_Some (v : Viewer) (n : nat) (i k : Z) :
  findNextFrom i n v = Some k ->
  i <= k < i + Z.of_nat n /\
  annotations v !! k = None /\ (k ∉ analyzingPages v) /\
  forall j, i <= j < k -> is_Some (annotations v !! j) \/ j ∈ analyzingPages v.
Proof.
  revert i. induction n as [|n IH]; intros i Hf; [discriminate Hf|].
  simpl in Hf.
  destruct (decide (is_Some (annotations v !! i))) as [Ha|Ha].
  - rewrite (bool_decide_eq_true_2 _ Ha) in Hf. simpl in Hf.
    destruct (IH _ Hf) as (Hr & Hk & Hn & Hmin).
    repeat split; try assumption; try lia.
    intros j Hj. destruct (decide (j = i)) as [->|]; [left; exact Ha | apply Hmin; lia].
  - rewrite (bool_decide_eq_false_2 _ Ha) in Hf. simpl in Hf.
    destruct (decide (i ∈ analyzingPages v)) as [Hb|Hb].
    + rewrite (bool_decide_eq_true_2 _ Hb) in Hf. simpl in Hf.
      destruct (IH _ Hf) as (Hr & Hk & Hn & Hmin).
      repeat split; try assumption; try lia.
      intros j Hj. destruct (decide (j = i)) as [->|]; [right; exact Hb | apply Hmin; lia].
    + rewrite (bool_decide_eq_false_2 _ Hb) in Hf. simpl in Hf.
      injection Hf as <-. repeat split; try assumption; try lia.
      apply eq_None_not_Some. exact Ha.
Qed.

Lemma findNextFrom_None (v : Viewer) (n : nat) (i : Z) :
  findNextFrom i n v = None ->
  forall j, i <= j < i + Z.of_nat n ->
            is_Some (annotations v !! j) \/ j ∈ analyzingPages v.
Proof.
  revert i. induction n as [|n IH]; intros i Hf j Hj; [lia|].
  simpl in Hf.
  destruct (decide (is_Some (annotations v !! i))) as [Ha|Ha].
  - rewrite (bool_decide_eq_true_2 _ Ha) in Hf. simpl in Hf.
    destruct (decide (j = i)) as [->|]; [left; exact Ha | apply (IH _ Hf); lia].
  - rewrite (bool_decide_eq_false_2 _ Ha) in Hf. simpl in Hf.
    destruct (decide (i ∈ analyzingPages v)) as [Hb|Hb].
    + rewrite (bool_decide_eq_true_2 _ Hb) in Hf. simpl in Hf.
      destruct (decide (j = i)) as [->|]; [right; exact Hb | apply (IH _ Hf); lia].
    + rewrite (bool_decide_eq_false_2 _ Hb) in Hf. discriminate Hf.
Qed.

Lemma findNext_open_page (v : Viewer) (k : Z) :
  findNextUnanalyzedPage v = Some k ->
  1 <= k <= numPages v /\ annotations v !! k = None /\ (k ∉ analyzingPages v).
Proof.
  intros Hf. destruct (findNextFrom_Some v _ _ _ Hf) as (Hr & Hk & Hn & _).
  repeat split; try assumption; lia.
Qed.

(** X17: the page [findNextUnanalyzedPage] returns lies in the document,
    has no annotations and is not being analyzed, and it is the first
    such page: every page before it has annotations or is being analyzed. *)
Theorem findNext_is_first_open_page (v : Viewer) (k : Z) :
  findNextUnanalyzedPage v = Some k ->
  1 <= k <= numPages v /\
  annotations v !! k = None /\ (k ∉ analyzingPages v) /\
  forall j, 1 <= j < k -> is_Some (annotations v !! j) \/ j ∈ analyzingPages v.
Proof.
  intros Hf. destruct (findNextFrom_Some v _ _ _ Hf) as (Hr & Hk & Hn & Hmin).
  repeat split; try assumption; lia.
Qed.

(** X18: [findNextUnanalyzedPage] returns [null] exactly when every page
    of the document has annotations or is being analyzed (in particular
    when the document has no pages). *)
Theorem findNext_null_iff_all_taken (v : Viewer) :
  findNextUnanalyzedPage v = None <->
  forall j, 1 <= j <= numPages v ->
            is_Some (annotations v !! j) \/ j ∈ analyzingPages v.
Proof.
  split.
  - intros Hf j Hj. apply (findNextFrom_None v _ _ Hf). lia.
  - intros Hall. destruct (findNextUnanalyzedPage v) as [k|] eqn:Hf; [|reflexivity].
    destruct (findNext_open_page v k Hf) as (Hr & Hk & Hn).
    destruct (Hall k Hr) as [[x Hx]|Hin]; [congruence | contradiction].
Qed.

Lemma analyzePage_accepts_spec (p : Z) (hasCanvas : bool) (v : Viewer) :
  analyzePage_accepts p hasCanvas v = true <->
  1 <= p <= numPages v /\ annotations v !! p = None /\ (p ∉ analyzingPages v) /\
  hasCanvas = true.
Proof.
  unfold analyzePage_accepts.
  destruct (Z.ltb_spec p 1); simpl; [split; [discriminate | lia]|].
  destruct (Z.ltb_spec (numPages v) p); simpl; [split; [discriminate | lia]|].
  destruct (decide (is_Some (annotations v !! p))) as [Ha|Ha].
  - rewrite (bool_decide_eq_true_2 _ Ha). simpl. split; [discriminate|].
    intros (_ & Hn & _). rewrite Hn in Ha. destruct Ha; discriminate.
  - rewrite (bool_decide_eq_false_2 _ Ha). simpl.
    apply eq_None_not_Some in Ha.
    destruct (decide (p ∈ analyzingPages v)) as [Hb|Hb].
    + rewrite (bool_decide_eq_true_2 _ Hb). simpl. split; [discriminate|].
      intros (_ & _ & Hn & _). contradiction.
    + rewrite (bool_decide_eq_false_2 _ Hb). simpl. split; [|intros (_ & _ & _ & H1); exact H1].
      intros ->. repeat split; try assumption; lia.
Qed.

Lemma analyzePage_settled (p : Z) (hasCanvas : bool) (v : Viewer) :
  analyzePage_accepts p hasCanvas v = true ->
  (forall pa, analyzePage p hasCanvas (Some pa) v
              = setAnnotations (<[p := pa]> (annotations v)) v) /\
  analyzePage p hasCanvas None v = v.
Proof.
  intros Hacc. pose proof (proj1 (analyzePage_accepts_spec _ _ _) Hacc) as (_ & _ & Hn & _).
  assert (Hset : (analyzingPages v ∪ {[p]}) ∖ {[p]} = analyzingPages v).
  { apply set_eq. intros x.
    rewrite elem_of_difference, elem_of_union, elem_of_singleton.
    split; [intros [[Hx|Hx] Hne]; [exact Hx | contradiction]|].
    intros Hx. split; [left; exact Hx | intros ->; contradiction]. }
  unfold analyzePage. rewrite Hacc.
  unfold analyzePage_settle, analyzePage_start, setAnalyzingPages, setAnnotations. simpl.
  rewrite Hset. split; [reflexivity|]. destruct v; reflexivity.
Qed.

(** X19: an accepted analysis leaves exactly one trace: when it succeeds,
    the annotations of that page and nothing else; when it fails, nothing
    at all, the viewer is as before and the page can be analyzed again.
    After a success the page is never analyzed again. *)
Theorem analysis_round_trip (p : Z) (hasCanvas : bool) (pa : list Annotation.t)
    (v : Viewer) :
  analyzePage_accepts p hasCanvas v = true ->
  analyzePage p hasCanvas (Some pa) v = setAnnotations (<[p := pa]> (annotations v)) v /\
  analyzePage p hasCanvas None v = v /\
  (forall hasCanvas' outcome,
      analyzePage p hasCanvas' outcome (analyzePage p hasCanvas (Some pa) v)
      = analyzePage p hasCanvas (Some pa) v).
Proof.
  intros Hacc. destruct (analyzePage_settled p hasCanvas v Hacc) as [Hok Hfail].
  split; [apply Hok | split; [exact Hfail|]].
  intros hc' outcome. rewrite Hok. unfold analyzePage at 1.
  destruct (analyzePage_accepts p hc' _) eqn:Hacc'; [|reflexivity].
  apply analyzePage_accepts_spec in Hacc'. destruct Hacc' as (_ & Hn & _).
  simpl in Hn. rewrite lookup_insert_eq in Hn. discriminate Hn.
Qed.

(** X20: pages outside the document, pages that already have annotations,
    pages being analyzed and pages without a rendered canvas are left
    alone: [analyzePage] returns the viewer unchanged, whatever the
    request would have answered. *)
Theorem analyzePage_rejects (p : Z) (hasCanvas : bool)
    (outcome : option (list Annotation.t)) (v : Viewer) :
  p < 1 \/ numPages v < p \/ is_Some (annotations v !! p) \/ p ∈ analyzingPages v
  \/ hasCanvas = false ->
  analyzePage p hasCanvas outcome v = v.
Proof.
  intros Hrej. unfold analyzePage.
  destruct (analyzePage_accepts p hasCanvas v) eqn:Hacc; [|reflexivity].
  apply analyzePage_accepts_spec in Hacc. destruct Hacc as (Hr & Hn & Hnin & Hc).
  destruct Hrej as [?|[?|[[x Hx]|[?|?]]]]; try lia; try congruence; contradiction.
Qed.

(** ** The analysis effects *)

Lemma backgroundEffect_Some (v : Viewer) (p : Z) :
  backgroundEffect v = Some p ->
  studyMode v = STUDY /\ fileLoaded v = true /\ analyzingPages v = ∅ /\
  findNextUnanalyzedPage v = Some p.
Proof.
  unfold backgroundEffect. intros Hb.
  destruct (studyMode v); [discriminate Hb|]. simpl in Hb.
  destruct (fileLoaded v); [|discriminate Hb]. simpl in Hb.
  destruct (numPages v =? 0); [discriminate Hb|]. simpl in Hb.
  destruct (Nat.ltb_spec 0 (size (analyzingPages v))) as [|Hsz]; [discriminate Hb|].
  assert (Hempty : analyzingPages v = ∅).
  { apply leibniz_equiv, size_empty_inv. lia. }
  destruct (findNextUnanalyzedPage v) as [k|]; [|discriminate Hb].
  destruct (k =? 0); [discriminate Hb|]. injection Hb as ->. auto.
Qed.

(** X21: the background queue runs one analysis at a time and in page
    order: it schedules a page only in STUDY mode, with a document loaded
    and no analysis in flight; the page is the first one without
    annotations, and [analyzePage] accepts it once its canvas is rendered. *)
Theorem background_schedules_first_open_page (v : Viewer) (p : Z) :
  backgroundEffect v = Some p ->
  studyMode v = STUDY /\ fileLoaded v = true /\ analyzingPages v = ∅ /\
  1 <= p <= numPages v /\ annotations v !! p = None /\
  (forall j, 1 <= j < p -> is_Some (annotations v !! j)) /\
  analyzePage_accepts p true v = true.
Proof.
  intros Hb. destruct (backgroundEffect_Some v p Hb) as (Hs & Hf & He & Hn).
  destruct (findNextFrom_Some v _ _ _ Hn) as (Hr & Hk & Hnin & Hmin).
  assert (Hrange : 1 <= p <= numPages v) by lia.
  repeat split; try assumption; try lia.
  - intros j Hj. destruct (Hmin j Hj) as [Ha|Hin]; [exact Ha|].
    rewrite He in Hin. set_solver.
  - apply analyzePage_accepts_spec. auto.
Qed.

Lemma autoAnalyzeEffect_fst (v : Viewer) (p : Z) :
  fst (autoAnalyzeEffect v) = Some p ->
  studyMode v = STUDY /\ fileLoaded v = true /\ annotations v !! p = None /\
  p = activePage (core v).
Proof.
  unfold autoAnalyzeEffect.
  destruct (studyMode v); [discriminate|].
  destruct (fileLoaded v); [|discriminate]. simpl.
  case_bool_decide as Ha; [discriminate|].
  intros Hp. injection Hp as <-.
  repeat split. apply eq_None_not_Some. exact Ha.
Qed.

Lemma autoAnalyzeEffect_snd (v : Viewer) (p : Z) :
  snd (autoAnalyzeEffect v) = Some p ->
  studyMode v = STUDY /\ fileLoaded v = true /\ annotations v !! p = None /\
  p = activePage (core v) + 1 /\ p <= numPages v.
Proof.
  unfold autoAnalyzeEffect.
  destruct (studyMode v); [discriminate|].
  destruct (fileLoaded v); [|discriminate]. simpl.
  destruct (Z.leb_spec (activePage (core v) + 1) (numPages v)); [|discriminate]. simpl.
  case_bool_decide as Ha; [discriminate|]. simpl.
  intros Hp. injection Hp as <-.
  repeat split; [|assumption]. apply eq_None_not_Some. exact Ha.
Qed.

(** X22: no analysis starts on its own outside STUDY mode or without a
    document, and what the two effects request are pages without
    annotations; the prefetched page is the one after the active page and
    lies within the page count. *)
Theorem automatic_analysis_targets (v : Viewer) :
  (studyMode v = READ \/ fileLoaded v = false ->
   backgroundEffect v = None /\ autoAnalyzeEffect v = (None, None)) /\
  (forall p, backgroundEffect v = Some p \/ fst (autoAnalyzeEffect v) = Some p
             \/ snd (autoAnalyzeEffect v) = Some p ->
             studyMode v = STUDY /\ fileLoaded v = true /\ annotations v !! p = None) /\
  (forall p, fst (autoAnalyzeEffect v) = Some p -> p = activePage (core v)) /\
  (forall p, snd (autoAnalyzeEffect v) = Some p ->
             p = activePage (core v) + 1 /\ p <= numPages v).
Proof.
  split; [|split; [|split]].
  - intros Hoff. unfold backgroundEffect, autoAnalyzeEffect.
    destruct Hoff as [->| ->]; [split; reflexivity|].
    destruct (studyMode v); split; reflexivity.
  - intros p [Hb|[Ha|Ha]].
    + destruct (backgroundEffect_Some v p Hb) as (Hs & Hf & _ & Hn).
      destruct (findNext_open_page v p Hn) as (_ & Hk & _). auto.
    + destruct (autoAnalyzeEffect_fst v p Ha) as (Hs & Hf & Hk & _). auto.
    + destruct (autoAnalyzeEffect_snd v p Ha) as (Hs & Hf & Hk & _). auto.
  - intros p Hp. apply (autoAnalyzeEffect_fst v p Hp).
  - intros p Hp. destruct (autoAnalyzeEffect_snd v p Hp) as (_ & _ & _ & H1 & H2). auto.
Qed.

(** X23: a page whose analysis fails blocks the background queue: the
    failed turn leaves the viewer exactly as it was, so the queue
    schedules the same page again. *)
Theorem failed_page_is_retried (outcome : Z -> option (list Annotation.t))
    (v : Viewer) (p : Z) :
  backgroundEffect v = Some p -> outcome p = None ->
  backgroundRound outcome v = v /\
  backgroundEffect (backgroundRound outcome v) = Some p.
Proof.
  intros Hb Hout.
  assert (Hacc : analyzePage_accepts p true v = true).
  { destruct (backgroundEffect_Some v p Hb) as (_ & _ & He & Hn).
    destruct (findNext_open_page v p Hn) as (Hr & Hk & Hnin).
    apply analyzePage_accepts_spec. auto. }
  assert (Hround : backgroundRound outcome v = v).
  { unfold backgroundRound. rewrite Hb, Hout.
    apply (analyzePage_settled p true v Hacc). }
  rewrite Hround. auto.
Qed.

Lemma findNext_None_intro (v : Viewer) :
  (forall j, 1 <= j <= numPages v ->
             is_Some (annotations v !! j) \/ j ∈ analyzingPages v) ->
  findNextUnanalyzedPage v = None.
Proof.
  intros Hall. destruct (findNextUnanalyzedPage v) as [k|] eqn:Hf; [|reflexivity].
  destruct (findNext_open_page v k Hf) as (Hr & Hk & Hn).
  destruct (Hall k Hr) as [[x Hx]|Hin]; [congruence | contradiction].
Qed.

Lemma backgroundEffect_None (v : Viewer) :
  studyMode v = STUDY -> fileLoaded v = true -> analyzingPages v = ∅ ->
  backgroundEffect v = None ->
  forall j, 1 <= j <= numPages v -> is_Some (annotations v !! j).
Proof.
  intros Hs Hf He Hb j Hj. unfold backgroundEffect in Hb.
  rewrite Hs, Hf, He, size_empty in Hb. simpl in Hb.
  destruct (Z.eqb_spec (numPages v) 0); [lia|]. simpl in Hb.
  destruct (findNextUnanalyzedPage v) as [k|] eqn:Hn.
  - destruct (findNext_open_page v k Hn) as (Hr & _).
    destruct (Z.eqb_spec k 0); [lia | discriminate Hb].
  - destruct (findNextFrom_None v _ _ Hn j) as [Ha|Hin]; [lia | exact Ha |].
    rewrite He in Hin. set_solver.
Qed.

(** One turn of the queue with a successful outcome. *)
Lemma backgroundRound_step (outcome : Z -> option (list Annotation.t)) (v : Viewer) :
  (forall p, is_Some (outcome p)) ->
  studyMode v = STUDY -> fileLoaded v = true -> analyzingPages v = ∅ ->
  let v' := backgroundRound outcome v in
  studyMode v' = STUDY /\ fileLoaded v' = true /\ analyzingPages v' = ∅ /\
  numPages v' = numPages v /\ core v' = core v /\
  (forall j, is_Some (annotations v !! j) -> annotations v' !! j = annotations v !! j) /\
  (forall m,
      (forall j, 1 <= j <= m -> j <= numPages v -> is_Some (annotations v !! j)) ->
      forall j, 1 <= j <= m + 1 -> j <= numPages v -> is_Some (annotations v' !! j)).
Proof.
  intros Hout Hs Hf He. cbv zeta. unfold backgroundRound.
  destruct (backgroundEffect v) as [p|] eqn:Hb.
  - destruct (backgroundEffect_Some v p Hb) as (_ & _ & _ & Hn).
    destruct (findNextFrom_Some v _ _ _ Hn) as (Hr & Hk & Hnin & Hmin).
    assert (Hacc : analyzePage_accepts p true v = true).
    { apply analyzePage_accepts_spec. repeat split; try assumption; lia. }
    destruct (Hout p) as [pa Hpa]. rewrite Hpa.
    rewrite (proj1 (analyzePage_settled p true v Hacc) pa).
    unfold setAnnotations, fileLoaded in *. simpl.
    repeat split; try assumption.
    + intros j [x Hx]. apply lookup_insert_ne. congruence.
    + intros m Hm j Hj Hjn.
      destruct (decide (p = j)) as [->|Hne]; [rewrite lookup_insert_eq; eauto|].
      rewrite lookup_insert_ne by exact Hne.
      destruct (Z.le_gt_cases j m) as [Hle|Hgt]; [apply Hm; lia|].
      destruct (Z.lt_ge_cases j p) as [Hlt|Hge].
      * destruct (Hmin j) as [Ha|Hin]; [lia | exact Ha |].
        rewrite He in Hin. set_solver.
      * assert (Hp : is_Some (annotations v !! p)) by (apply Hm; lia).
        rewrite Hk in Hp. destruct Hp; discriminate.
  - repeat split; try assumption.
    intros m _ j Hj Hjn. apply (backgroundEffect_None v Hs Hf He Hb). lia.
Qed.

(** X24: when every analysis succeeds, the background queue works through
    the document in page order: after [k] turns the first [k] pages have
    annotations, annotations that were there are kept, no analysis is left
    in flight and the drawings are untouched; once [k] reaches the page
    count every page has annotations and the queue schedules nothing. *)
Theorem background_queue_covers_document (outcome : Z -> option (list Annotation.t))
    (v : Viewer) (k : nat) :
  (forall p, is_Some (outcome p)) ->
  studyMode v = STUDY -> fileLoaded v = true -> analyzingPages v = ∅ ->
  let v' := Nat.iter k (backgroundRound outcome) v in
  (forall j, 1 <= j <= Z.of_nat k -> j <= numPages v -> is_Some (annotations v' !! j)) /\
  (forall j, is_Some (annotations v !! j) -> annotations v' !! j = annotations v !! j) /\
  analyzingPages v' = ∅ /\ core v' = core v /\ numPages v' = numPages v /\
  (numPages v <= Z.of_nat k -> backgroundEffect v' = None).
Proof.
  intros Hout Hs Hf He. cbv zeta.
  assert (Hinv : studyMode (Nat.iter k (backgroundRound outcome) v) = STUDY /\
                 fileLoaded (Nat.iter k (backgroundRound outcome) v) = true /\
                 analyzingPages (Nat.iter k (backgroundRound outcome) v) = ∅ /\
                 numPages (Nat.iter k (backgroundRound outcome) v) = numPages v /\
                 core (Nat.iter k (backgroundRound outcome) v) = core v /\
                 (forall j, is_Some (annotations v !! j) ->
                            annotations (Nat.iter k (backgroundRound outcome) v) !! j
                            = annotations v !! j) /\
                 (forall j, 1 <= j <= Z.of_nat k -> j <= numPages v ->
                            is_Some (annotations (Nat.iter k (backgroundRound outcome) v) !! j))).
  { induction k as [|k IH].
    - simpl. repeat split; try assumption. intros j Hj. lia.
    - destruct IH as (IHs & IHf & IHe & IHn & IHc & IHk & IHa).
      simpl Nat.iter.
      destruct (backgroundRound_step outcome _ Hout IHs IHf IHe)
        as (Hs' & Hf' & He' & Hn' & Hc' & Hk' & Ha').
      repeat split; try assumption; try congruence.
      + intros j Hj. rewrite Hk' by (rewrite IHk by exact Hj; exact Hj).
        apply IHk. exact Hj.
      + intros j Hj Hjn. apply (Ha' (Z.of_nat k)).
        * intros j' Hj' Hjn'. apply IHa; lia.
        * lia.
        * lia. }
  destruct Hinv as (Hs' & Hf' & He' & Hn' & Hc' & Hk' & Ha').
  repeat split; try assumption.
  intros Hall. unfold backgroundEffect. rewrite Hs', Hf', He', size_empty. simpl.
  destruct (numPages _ =? 0); [reflexivity|]. simpl.
  rewrite findNext_None_intro; [reflexivity|].
  intros j Hj. left. apply Ha'; lia.
Qed.

(** X25: while a capture holds at least two points, the effect of
    [DrawingCanvas] paints the in-progress path last on the canvas of every
    page, not only on the page being drawn on; with a single point so far
    it paints the committed strokes only. *)
Theorem live_path_drawn_on_every_page (cv : Canvas.t) (ctx : Ctx) (s : State) :
  Canvas.getContext cv = Some ctx ->
  ((2 <= length (currentPath s))%nat ->
   forall pageNum : Z,
   exists ctx' op,
     DrawingCanvas_effect (Some cv) pageNum s
     = Some (Canvas.mk (Canvas.width cv) (Canvas.height cv) (Some ctx')) /\
     last (painted ctx') = Some (Stroke op) /\
     strokePath op = pathOf (Canvas.width cv) (Canvas.height cv) (currentPath s)) /\
  ((length (currentPath s) < 2)%nat ->
   forall pageNum : Z,
     DrawingCanvas_effect (Some cv) pageNum s = renderDrawings (Some cv) pageNum s).
Proof.
  intros Hctx. split; intros Hlen pageNum.
  - unfold DrawingCanvas_effect, renderDrawings. rewrite Hctx.
    cbv zeta. cbn [Canvas.getContext Canvas.width Canvas.height].
    destruct (Nat.ltb_spec 0 (length (currentPath s))) as [_|?]; [|lia].
    destruct (Nat.ltb_spec 1 (length (currentPath s))) as [_|?]; [|lia].
    cbn [andb].
    eexists. eexists. split; [reflexivity|].
    rewrite drawCurrentPath_paints
      by (destruct (currentPath s); [simpl in Hlen; lia | discriminate]).
    rewrite last_snoc. split; reflexivity.
  - unfold DrawingCanvas_effect, renderDrawings. rewrite Hctx. cbv zeta.
    destruct (Nat.ltb_spec 1 (length (currentPath s))) as [?|_]; [lia|].
    rewrite andb_false_r. reflexivity.
Qed.

(** ** The further properties at concrete inputs *)

Lemma undo_redo_inverse_witness :
  redo (undo annotatedState)
  = withPage 1 (orEmpty (history annotatedState) 1) (orEmpty (drawings annotatedState) 1)
             (orEmpty (future annotatedState) 1) annotatedState.
Proof.
  apply (proj1 (undo_redo_inverse annotatedState)). vm_compute. discriminate.
Defined.

Lemma clear_then_undo_restores_witness :
  undo (clearPageDrawings annotatedState)
  = withPage 1 (orEmpty (history annotatedState) 1) (orEmpty (drawings annotatedState) 1)
             [[]] annotatedState.
Proof.
  apply (clear_then_undo_restores annotatedState). vm_compute. discriminate.
Defined.

Lemma pointer_ignored_outside_drawing_mode_witness :
  run initialState
      [MouseDown (eventAt 300 400 600 800) 1; MouseMove (eventAt 450 600 600 800);
       End 1 1700000000000]
  = initialState.
Proof.
  apply (pointer_ignored_outside_drawing_mode initialState).
  - reflexivity.
  - repeat constructor.
Defined.

Lemma moves_and_ends_need_a_begin_witness :
  run annotatedState
      [MouseMove (eventAt 450 600 600 800); TouchMove (eventAt 10 10 600 800);
       End 1 1700000000000]
  = annotatedState.
Proof.
  apply (moves_and_ends_need_a_begin annotatedState).
  - reflexivity.
  - repeat constructor.
Defined.

Lemma commits_grow_history_witness :
  let s1 := run annotatedState (flat_map (gestureInputs 1) [gestureB; gestureA; gestureB]) in
  orEmpty (drawings s1) 1
  = orEmpty (drawings annotatedState) 1 ++ map strokeOf [gestureB; gestureA; gestureB] /\
  length (orEmpty (history s1) 1) = (length (orEmpty (history annotatedState) 1) + 3)%nat /\
  orEmpty (history annotatedState) 1 `prefix_of` orEmpty (history s1) 1 /\
  isDrawingMode s1 = true.
Proof.
  apply (commits_grow_history 1 [gestureB; gestureA; gestureB] annotatedState).
  reflexivity.
Defined.

Lemma renderDrawings_paint_order_witness :
  exists ctx' sops,
    renderDrawings (Some sampleCanvas) 1 annotatedState
    = Some (Canvas.mk 1200 1600 (Some ctx')) /\
    painted ctx' = painted freshCtx ++ ClearRect 0 0 1200 1600 :: map Stroke sops /\
    map strokePath sops
    = map (fun d => pathOf 1200 1600 (Drawing.points d))
          (filter (fun d => (2 <= length (Drawing.points d))%nat)
                  (orEmpty (drawings annotatedState) 1)).
Proof.
  apply (renderDrawings_paint_order sampleCanvas freshCtx 1 annotatedState). reflexivity.
Defined.

Lemma effect_restores_source_over_witness :
  exists ctx',
    DrawingCanvas_effect (Some sampleCanvas) 1 annotatedState
    = Some (Canvas.mk 1200 1600 (Some ctx')) /\
    globalCompositeOperation ctx' = "source-over".
Proof.
  apply (effect_restores_source_over sampleCanvas freshCtx 1 annotatedState); reflexivity.
Defined.

Lemma preview_matches_committed_stroke_witness :
  drawCurrentPath 1200 1600 [Point.mk 0.5 0.5; Point.mk 0.25 0.75] "eraser" freshCtx
  = drawPath 1200 1600 [Point.mk 0.5 0.5; Point.mk 0.25 0.75] "eraser" 20 freshCtx.
Proof.
  apply (preview_matches_committed_stroke 1200 1600 [Point.mk 0.5 0.5; Point.mk 0.25 0.75]
           "eraser" 1700000000000 freshCtx).
  simpl. lia.
Defined.

Lemma loading_takes_first_file_witness :
  onDrop (Some [File.mk "notes.txt" "text/plain"; File.mk "paper.pdf" "application/pdf"])
         studyViewer
  = (studyViewer, Some "Please drop a PDF file.").
Proof.
  apply (proj1 (loading_takes_first_file (File.mk "notes.txt" "text/plain")
                  [File.mk "paper.pdf" "application/pdf"] studyViewer)).
  simpl. discriminate.
Defined.

Lemma scrollToPage_clamps_witness :
  activePage (core (scrollToPage 7 studyViewer)) <= 3 /\
  activePage (core (scrollToPage 2 studyViewer)) = 2 /\
  activePage (core (scrollToPage 2 initialViewer)) = 0.
Proof.
  split; [|split].
  - apply (scrollToPage_clamps 7 studyViewer).
  - apply (scrollToPage_clamps 2 studyViewer). simpl. lia.
  - apply (scrollToPage_clamps 2 initialViewer). simpl. lia.
Defined.

Lemma pagination_steps_by_one_witness :
  activePage (core (nextPageButton studyViewer)) = 2 /\
  activePage (core (previousPageButton (nextPageButton studyViewer))) = 1.
Proof.
  apply (pagination_steps_by_one studyViewer); simpl; lia.
Defined.

Lemma findNext_is_first_open_page_witness :
  1 <= 1 <= numPages studyViewer /\
  annotations studyViewer !! 1 = None /\ (1 ∉ analyzingPages studyViewer) /\
  forall j, 1 <= j < 1 ->
            is_Some (annotations studyViewer !! j) \/ j ∈ analyzingPages studyViewer.
Proof.
  apply (findNext_is_first_open_page studyViewer 1). reflexivity.
Defined.

Lemma analysis_round_trip_witness :
  analyzePage 2 true (Some [sampleAnnotation]) studyViewer
  = setAnnotations (<[2 := [sampleAnnotation]]> (annotations studyViewer)) studyViewer /\
  analyzePage 2 true None studyViewer = studyViewer /\
  (forall hasCanvas' outcome,
      analyzePage 2 hasCanvas' outcome
                  (analyzePage 2 true (Some [sampleAnnotation]) studyViewer)
      = analyzePage 2 true (Some [sampleAnnotation]) studyViewer).
Proof.
  apply (analysis_round_trip 2 true [sampleAnnotation] studyViewer). reflexivity.
Defined.

Lemma analyzePage_rejects_witness :
  analyzePage 4 true (Some [sampleAnnotation]) studyViewer = studyViewer.
Proof.
  apply (analyzePage_rejects 4 true (Some [sampleAnnotation]) studyViewer).
  right. left. simpl. lia.
Defined.

Lemma background_schedules_first_open_page_witness :
  studyMode studyViewer = STUDY /\ fileLoaded studyViewer = true /\
  analyzingPages studyViewer = ∅ /\
  1 <= 1 <= numPages studyViewer /\ annotations studyViewer !! 1 = None /\
  (forall j, 1 <= j < 1 -> is_Some (annotations studyViewer !! j)) /\
  analyzePage_accepts 1 true studyViewer = true.
Proof.
  apply (background_schedules_first_open_page studyViewer 1). reflexivity.
Defined.

Lemma automatic_analysis_targets_witness :
  backgroundEffect initialViewer = None /\ autoAnalyzeEffect initialViewer = (None, None).
Proof.
  apply (proj1 (automatic_analysis_targets initialViewer)). left. reflexivity.
Defined.

Lemma failed_page_is_retried_witness :
  backgroundRound (fun _ => None) studyViewer = studyViewer /\
  backgroundEffect (backgroundRound (fun _ => None) studyViewer) = Some 1.
Proof.
  apply (failed_page_is_retried (fun _ => None) studyViewer 1); reflexivity.
Defined.

Lemma background_queue_covers_document_witness :
  (forall j, 1 <= j <= 3 ->
             is_Some (annotations (Nat.iter 3 (backgroundRound sampleOutcome) studyViewer) !! j)) /\
  backgroundEffect (Nat.iter 3 (backgroundRound sampleOutcome) studyViewer) = None.
Proof.
  destruct (background_queue_covers_document sampleOutcome studyViewer 3)
    as (Hcov & _ & _ & _ & _ & Hdone).
  - intros p. eexists. reflexivity.
  - reflexivity.
  - reflexivity.
  - reflexivity.
  - split; [|apply Hdone; simpl; lia].
    intros j Hj. apply Hcov; simpl; lia.
Defined.

Lemma live_path_drawn_on_every_page_witness :
  (forall pageNum : Z,
      exists ctx' op,
        DrawingCanvas_effect (Some sampleCanvas) pageNum
          (run capturingState [MouseMove (eventAt 450 600 600 800)])
        = Some (Canvas.mk 1200 1600 (Some ctx')) /\
        last (painted ctx') = Some (Stroke op) /\
        strokePath op = [MoveTo 600 800; LineTo 900 1200]) /\
  (forall pageNum : Z,
      DrawingCanvas_effect (Some sampleCanvas) pageNum capturingState
      = renderDrawings (Some sampleCanvas) pageNum capturingState).
Proof.
  split.
  - apply (proj1 (live_path_drawn_on_every_page sampleCanvas freshCtx
                    (run capturingState [MouseMove (eventAt 450 600 600 800)]) eq_refl)).
    vm_compute. lia.
  - apply (proj2 (live_path_drawn_on_every_page sampleCanvas freshCtx capturingState
                    eq_refl)).
    vm_compute. lia.
Defined.
